(** * Budget analytics API: the aggregation engine and its endpoints

    A shallow embedding of [app.py] and [models.py].  A pandas DataFrame is
    the list of its rows, a grouped sum is a finite map from the group key
    to the sum, an endpoint is a function from the stored table and the
    request parameters to a response (status and body).

    Amounts are Python floats in the source.  The first embedding takes
    them as exact rationals in canonical form ([Qc]): sums are exact, and
    [round(x, 2)] is rounding to the nearest hundredth, ties to the even
    hundredth.  It carries the properties that do not turn on how a float
    sum comes out: which records and categories enter an aggregate, with
    which sign, in which months, and what the views answer to which
    request.  The properties of the guards [if base > 0], which are
    decided on the very number a view has computed, are stated over the
    second embedding, [Machine]: the same views over any arithmetic with
    the operations of the source, of which the binary floats are one. *)

From Stdlib Require Import QArith Qcanon Qcabs Qround PrimFloat.
From stdpp Require Import gmap strings list numbers sorting.

Local Open Scope Qc_scope.
#[local] Set Warnings "-inexact-float".

(** ** Numbers *)

Module Num.

(** A literal with two decimals, [money 1250 = 12.50]. *)
Definition money (hundredths : Z) : Qc := Q2Qc (hundredths # 100).

Definition hundred : Qc := Qc_of_Z 100.
Definition half : Qc := Q2Qc (1 # 2).

(** The nearest integer, ties to the even one. *)
Definition round_half_even (x : Qc) : Z :=
  let f := Qfloor x in
  let r := x - Qc_of_Z f in
  if decide (r < half) then f
  else if decide (half < r) then (f + 1)%Z
  else if Z.even f then f else (f + 1)%Z.

(** [round(x, 2)] *)
Definition round2 (x : Qc) : Qc := money (round_half_even (x * hundred)).

(** A value with at most two decimals. *)
Definition two_decimals (x : Qc) : Prop := ∃ k : Z, x = money k.

(** [sum()] of a column *)
Definition col_sum (l : list Qc) : Qc := foldr Qcplus 0 l.

(** [a / b] on numbers: Python raises [ZeroDivisionError] on a zero
    divisor (numpy yields [inf] or [nan]); both are [None] here. *)
Definition py_div (a b : Qc) : option Qc :=
  if decide (b = 0) then None else Some (a / b).

End Num.

Export Num.

(** ** models.py *)

Module Models.

(** [class TransactionType(enum.Enum)] with its [value]. *)
Inductive TransactionType := INCOME | EXPENSE.

Definition value (t : TransactionType) : string :=
  match t with INCOME => "income" | EXPENSE => "expense" end.

#[global] Instance TransactionType_eq_dec : EqDecision TransactionType.
Proof. solve_decision. Defined.

(** A [DateTime] column value: calendar date and time of day (seconds
    since midnight), ordered chronologically. *)
Record datetime := mk_datetime { year : Z; month : Z; day : Z; time_of_day : Z }.

#[global] Instance datetime_eq_dec : EqDecision datetime.
Proof. solve_decision. Defined.

(** What every [datetime] value of the source satisfies. *)
Definition valid_datetime (d : datetime) : Prop := (1 ≤ month d ≤ 12)%Z.

#[global] Instance valid_datetime_dec d : Decision (valid_datetime d).
Proof. unfold valid_datetime. apply _. Defined.

Definition datetime_leb (a b : datetime) : bool :=
  if decide (year a = year b) then
    if decide (month a = month b) then
      if decide (day a = day b) then bool_decide (time_of_day a ≤ time_of_day b)%Z
      else bool_decide (day a < day b)%Z
    else bool_decide (month a < month b)%Z
  else bool_decide (year a < year b)%Z.

Definition datetime_le (a b : datetime) : Prop := datetime_leb a b = true.

#[global] Instance datetime_le_dec a b : Decision (datetime_le a b).
Proof. unfold datetime_le. apply _. Defined.

Definition datetime_min (a b : datetime) := if datetime_leb a b then a else b.
Definition datetime_max (a b : datetime) := if datetime_leb a b then b else a.

(** [class Transaction(Base)]; [created_at] is the wall clock at insertion
    and plays no part in any aggregate. *)
Record Transaction := mk_Transaction {
  t_id : nat;
  t_date : datetime;
  t_category : string;
  t_amount : Qc;
  t_type : TransactionType;
  t_description : option string
}.

End Models.

Export Models.

(** ** The DataFrame of transactions *)

Module Frame.

(** One row of the frame built by [get_transactions_as_dataframe]; the
    [type] column holds the enumeration's string value. *)
Record Row := mk_Row {
  row_id : nat;
  row_date : datetime;
  row_category : string;
  row_amount : Qc;
  row_type : string;
  row_description : option string
}.

Abbreviation DataFrame := (list Row).

(** [df.empty] *)
Definition df_empty (df : DataFrame) : bool :=
  match df with [] => true | _ => false end.

(** [df[df['type'] == ty]] *)
Definition of_type (ty : string) (df : DataFrame) : DataFrame :=
  filter (λ r, row_type r = ty) df.

Definition set_amount (a : Qc) (r : Row) : Row :=
  mk_Row (row_id r) (row_date r) (row_category r) a (row_type r)
         (row_description r).

(** [df['amount'] = df['amount'].abs()] *)
Definition abs_amounts (df : DataFrame) : DataFrame :=
  map (λ r, set_amount (Qcabs (row_amount r)) r) df.

(** [df.groupby(key)['amount'].sum()]: one entry per key that occurs. *)
Definition groupby_sum {K} `{Countable K} (key : Row → K) (df : DataFrame)
  : gmap K Qc :=
  foldr (λ r m, <[key r := row_amount r + default 0 (m !! key r)]> m) ∅ df.

(** [df['date'].min()] and [.max()] of a frame with first row [r]. *)
Definition date_min (r : Row) (rs : DataFrame) : datetime :=
  foldr (λ x d, datetime_min (row_date x) d) (row_date r) rs.
Definition date_max (r : Row) (rs : DataFrame) : datetime :=
  foldr (λ x d, datetime_max (row_date x) d) (row_date r) rs.

End Frame.

Export Frame.

(** ** app.py: helper functions *)

Definition to_row (t : Transaction) : Row :=
  mk_Row (t_id t) (t_date t) (t_category t) (t_amount t) (value (t_type t))
         (t_description t).

(** The table [transactions] is the list of its records.  The bounds
    arrive as request strings; [None] is an absent or empty one (falsy in
    [if start_date:]), [Some d] the timestamp the database reads it as. *)
Definition get_transactions_as_dataframe (db : list Transaction)
    (start_date end_date : option datetime) : DataFrame :=
  let query := db in
  let query :=
    match start_date with
    | Some s => filter (λ t, datetime_le s (t_date t)) query
    | None => query
    end in
  let query :=
    match end_date with
    | Some e => filter (λ t, datetime_le (t_date t) e) query
    | None => query
    end in
  map to_row query.

Definition analyze_spending (df : DataFrame) : gmap string Qc :=
  if df_empty df then ∅
  else
    let expenses := abs_amounts (of_type "expense" df) in
    groupby_sum row_category expenses.

(** A monthly [pd.Period]: the number of months since January 1970. *)
Definition to_period (d : datetime) : Z := ((year d - 1970) * 12 + (month d - 1))%Z.
Definition period_year (p : Z) : Z := (p `div` 12 + 1970)%Z.
Definition period_month (p : Z) : Z := (p `mod` 12 + 1)%Z.

(** [pd.period_range(start=.., end=.., freq='M')]: every month from the
    month of [start_] to the month of [end_], both included. *)
Definition period_range (start_ end_ : datetime) : list Z :=
  seqZ (to_period start_) (to_period end_ - to_period start_ + 1).

(** One dictionary of the monthly breakdown; [me_month] is rendered by
    [str(month)] as [YYYY-MM]. *)
Record MonthEntry := mk_MonthEntry {
  me_month : Z;
  me_income : Qc;
  me_expenses : Qc;
  me_savings : Qc;
  me_savings_rate : Qc
}.

(** [None] stands for a raised exception. *)
Definition analyze_monthly (df : DataFrame) : option (list MonthEntry) :=
  match df with
  | [] => Some []
  | r :: rs =>
      let month_of := λ x, to_period (row_date x) in
      let income_df := of_type "income" df in
      let expense_df := abs_amounts (of_type "expense" df) in
      let monthly_income := groupby_sum month_of income_df in
      let monthly_expenses := groupby_sum month_of expense_df in
      mapM (λ m,
              let income := default 0 (monthly_income !! m) in
              let expenses := default 0 (monthly_expenses !! m) in
              let savings := income - expenses in
              savings_rate ←
                (if decide (0 < income)
                 then q ← py_div savings income; Some (q * hundred)
                 else Some 0);
              Some (mk_MonthEntry m (round2 income) (round2 expenses)
                                  (round2 savings) (round2 savings_rate)))
           (period_range (date_min r rs) (date_max r rs))
  end.

(** ** app.py: endpoints *)

(** What a view returns: the status and the JSON body.  [ServerError] is
    the [except Exception] branch (status 500, the exception's text). *)
Inductive Response (A : Type) :=
| Ok (body : A)
| Created (body : A)
| BadRequest (error : string)
| NotFound (error : string)
| ServerError.
Arguments Ok {A} body.
Arguments Created {A} body.
Arguments BadRequest {A} error.
Arguments NotFound {A} error.
Arguments ServerError {A}.

Definition status {A} (r : Response A) : Z :=
  match r with
  | Ok _ => 200 | Created _ => 201 | BadRequest _ => 400
  | NotFound _ => 404 | ServerError => 500
  end%Z.

(** [try: ... except Exception as e: return jsonify(...), 500] *)
Definition try_ {A} (body : option (Response A)) : Response A :=
  default ServerError body.

Record Summary := mk_Summary {
  total_income : Qc;
  total_expenses : Qc;
  total_savings : Qc;
  savings_rate : Qc
}.

Record Analysis := mk_Analysis {
  summary : Summary;
  category_spending : gmap string Qc;
  date_range_start : Z * Z * Z;
  date_range_end : Z * Z * Z
}.

(** [strftime('%Y-%m-%d')] keeps the calendar date. *)
Definition ymd (d : datetime) : Z * Z * Z := (year d, month d, day d).

Definition get_analysis (db : list Transaction)
    (start_date end_date : option datetime) : Response Analysis :=
  try_
    (let df := get_transactions_as_dataframe db start_date end_date in
     match df with
     | [] => Some (NotFound "No transactions found")
     | r :: rs =>
         let category_spending := analyze_spending df in
         let total_income := col_sum (map row_amount (of_type "income" df)) in
         let total_expenses :=
           col_sum (map Qcabs (map row_amount (of_type "expense" df))) in
         let total_savings := total_income - total_expenses in
         rate ←
           (if decide (0 < total_income)
            then q ← py_div total_savings total_income; Some (q * hundred)
            else Some 0);
         Some (Ok (mk_Analysis
                     (mk_Summary (round2 total_income) (round2 total_expenses)
                                 (round2 total_savings) (round2 rate))
                     category_spending
                     (ymd (date_min r rs)) (ymd (date_max r rs))))
     end).

Definition get_monthly_analysis (db : list Transaction)
    (start_date end_date : option datetime) : Response (list MonthEntry) :=
  try_
    (let df := get_transactions_as_dataframe db start_date end_date in
     if df_empty df then Some (NotFound "No transactions found")
     else
       monthly_data ← analyze_monthly df;
       Some (Ok monthly_data)).

Record PeriodTotals := mk_PeriodTotals {
  p_date_range : datetime * datetime;
  p_income : Qc;
  p_expenses : Qc;
  p_savings : Qc
}.

Record Changes := mk_Changes {
  income_change : Qc;
  income_change_pct : Qc;
  expense_change : Qc;
  expense_change_pct : Qc
}.

Record Comparison := mk_Comparison {
  period1 : PeriodTotals;
  period2 : PeriodTotals;
  changes : Changes
}.

(** The four bounds are request parameters: [None] is an absent or empty
    one, which [all([...])] rejects. *)
Definition compare_periods (db : list Transaction)
    (period1_start period1_end period2_start period2_end : option datetime)
  : Response Comparison :=
  try_
    (match period1_start, period1_end, period2_start, period2_end with
     | Some p1_start, Some p1_end, Some p2_start, Some p2_end =>
         let df1 := get_transactions_as_dataframe db (Some p1_start) (Some p1_end) in
         let p1_income :=
           if negb (df_empty df1)
           then col_sum (map row_amount (of_type "income" df1)) else 0 in
         let p1_expenses :=
           if negb (df_empty df1)
           then col_sum (map Qcabs (map row_amount (of_type "expense" df1)))
           else 0 in
         let df2 := get_transactions_as_dataframe db (Some p2_start) (Some p2_end) in
         let p2_income :=
           if negb (df_empty df2)
           then col_sum (map row_amount (of_type "income" df2)) else 0 in
         let p2_expenses :=
           if negb (df_empty df2)
           then col_sum (map Qcabs (map row_amount (of_type "expense" df2)))
           else 0 in
         let income_change := p2_income - p1_income in
         let expense_change := p2_expenses - p1_expenses in
         income_change_pct ←
           (if decide (0 < p1_income)
            then q ← py_div income_change p1_income; Some (q * hundred)
            else Some 0);
         expense_change_pct ←
           (if decide (0 < p1_expenses)
            then q ← py_div expense_change p1_expenses; Some (q * hundred)
            else Some 0);
         Some (Ok (mk_Comparison
                     (mk_PeriodTotals (p1_start, p1_end)
                        (round2 p1_income) (round2 p1_expenses)
                        (round2 (p1_income - p1_expenses)))
                     (mk_PeriodTotals (p2_start, p2_end)
                        (round2 p2_income) (round2 p2_expenses)
                        (round2 (p2_income - p2_expenses)))
                     (mk_Changes (round2 income_change) (round2 income_change_pct)
                        (round2 expense_change) (round2 expense_change_pct))))
     | _, _, _, _ =>
         Some (BadRequest
           "Required parameters: period1_start, period1_end, period2_start, period2_end")
     end).

Record Stats := mk_Stats {
  total_transactions : nat;
  stats_total_income : Qc;
  stats_total_expenses : Qc;
  net_savings : Qc;
  unique_categories : nat
}.

(** [db.query(func.sum(Transaction.amount)).filter(type == ty).scalar()]:
    SQL's [SUM] over no row is [NULL]. *)
Definition sql_sum_amount (ty : TransactionType) (db : list Transaction)
  : option Qc :=
  match filter (λ t, t_type t = ty) db with
  | [] => None
  | l => Some (col_sum (map t_amount l))
  end.

(** [x or 0]: [None] and a zero sum are both falsy. *)
Definition or_zero (x : option Qc) : Qc :=
  match x with
  | Some v => if decide (v = 0) then 0 else v
  | None => 0
  end.

Definition get_stats (db : list Transaction) : Response Stats :=
  try_
    (let total_transactions := length db in
     let total_income := or_zero (sql_sum_amount INCOME db) in
     let total_expenses := or_zero (sql_sum_amount EXPENSE db) in
     let categories := length (remove_dups (map t_category db)) in
     Some (Ok (mk_Stats total_transactions
                 (round2 total_income)
                 (round2 (Qcabs total_expenses))
                 (round2 (total_income + total_expenses))
                 categories))).

(** *** Creating records *)

(** A request or CSV cell that the view converts ([strptime],
    [pd.to_datetime], [float]): absent, present but rejected by the
    conversion (which raises), or present with the converted value. *)
Inductive Field (A : Type) := Missing | Malformed | Value (a : A).
Arguments Missing {A}.
Arguments Malformed {A}.
Arguments Value {A} a.

Definition present {A} (f : Field A) : bool :=
  match f with Missing => false | _ => true end.

(** The conversion itself: [None] when it raises. *)
Definition convert {A} (f : Field A) : option A :=
  match f with Value a => Some a | _ => None end.

Record TransactionData := mk_TransactionData {
  d_date : Field datetime;
  d_category : option string;
  d_amount : Field Qc;
  d_type : option string;
  d_description : option string
}.

(** The primary key the database assigns on insertion. *)
Definition next_id (db : list Transaction) : nat :=
  S (foldr Nat.max 0%nat (map t_id db)).

(** [TransactionType.INCOME if ty == 'income' else TransactionType.EXPENSE] *)
Definition type_of_input (ty : string) : TransactionType :=
  if decide (ty = "income") then INCOME else EXPENSE.

(** The view and the table after it; an exception of the view leaves the
    table as it was (nothing is committed).  What the database itself
    refuses at the commit, such as a category longer than its column, is
    outside this model. *)
Definition create_transaction (db : list Transaction) (data : TransactionData)
  : Response Transaction * list Transaction :=
  match
    (if negb (present (d_date data) && bool_decide (is_Some (d_category data))
              && present (d_amount data) && bool_decide (is_Some (d_type data)))
     then Some (BadRequest "Required fields: ['date', 'category', 'amount', 'type']", db)
     else
       date ← convert (d_date data);
       category ← d_category data;
       amount ← convert (d_amount data);
       ty ← d_type data;
       let transaction :=
         mk_Transaction (next_id db) date category amount (type_of_input ty)
                        (Some (default EmptyString (d_description data))) in
       Some (Created transaction, db ++ [transaction]))
  with
  | Some r => r
  | None => (ServerError, db)
  end.

(** A CSV file read by [pd.read_csv]: its header and its rows. *)
Record CsvRow := mk_CsvRow {
  c_date : Field datetime;
  c_category : string;
  c_amount : Field Qc;
  c_type : string;
  c_description : option string
}.

Record Csv := mk_Csv { csv_columns : list string; csv_rows : list CsvRow }.

(** The loop of [upload_csv]: one record per row.  When a row raises,
    nothing has been committed and the table is as it was; the records
    added before that row stay pending in the session, which is outside
    this model. *)
Fixpoint add_rows (db : list Transaction) (rows : list CsvRow)
  : option (list Transaction) :=
  match rows with
  | [] => Some db
  | row :: rest =>
      date ← convert (c_date row);
      amount ← convert (c_amount row);
      let transaction :=
        mk_Transaction (next_id db) date (c_category row) amount
                       (type_of_input (c_type row))
                       (Some (default EmptyString (c_description row))) in
      add_rows (db ++ [transaction]) rest
  end.

(** [upload_csv] from the point where the file has been read; the body is
    [transactions_added]. *)
Definition upload_csv (db : list Transaction) (df : Csv)
  : Response nat * list Transaction :=
  if negb (forallb (λ col, bool_decide (col ∈ csv_columns df))
                   ["date"; "category"; "amount"; "type"])
  then (BadRequest "CSV must contain columns: ['date', 'category', 'amount', 'type']", db)
  else
    match add_rows db (csv_rows df) with
    | Some db' => (Created (length (csv_rows df)), db')
    | None => (ServerError, db)
    end.

(** *** Listing records: the sibling reading of [type] *)

(** [str.upper()] on ASCII letters. *)
Definition upper_ascii (c : Ascii.ascii) : Ascii.ascii :=
  let n := Ascii.nat_of_ascii c in
  if (97 <=? n)%nat && (n <=? 122)%nat then Ascii.ascii_of_nat (n - 32) else c.

Fixpoint upper (s : string) : string :=
  match s with
  | EmptyString => EmptyString
  | String c s' => String (upper_ascii c) (upper s')
  end.

(** [TransactionType[name]]: lookup by member name, [None] for [KeyError]. *)
Definition TransactionType_getitem (name : string) : option TransactionType :=
  if decide (name = "INCOME") then Some INCOME
  else if decide (name = "EXPENSE") then Some EXPENSE
  else None.

Definition get_transactions (db : list Transaction)
    (start_date end_date : Field datetime)
    (category transaction_type : option string)
  : Response (nat * list Transaction) :=
  try_
    (let query := db in
     query ←
       match start_date with
       | Missing => Some query
       | _ => s ← convert start_date;
              Some (filter (λ t, datetime_le s (t_date t)) query)
       end;
     query ←
       match end_date with
       | Missing => Some query
       | _ => e ← convert end_date;
              Some (filter (λ t, datetime_le (t_date t) e) query)
       end;
     let query :=
       match category with
       | Some c => if decide (c = EmptyString) then query
                   else filter (λ t, t_category t = c) query
       | None => query
       end in
     query ←
       match transaction_type with
       | Some ty =>
           if decide (ty = EmptyString) then Some query
           else
             ty' ← TransactionType_getitem (upper ty);
             Some (filter (λ t, t_type t = ty') query)
       | None => Some query
       end;
     Some (Ok (length query, query))).

(** *** Uploaded file names *)

(** The character of ["."]. *)
Definition dot : Ascii.ascii := Ascii.ascii_of_nat 46.

(** ['.' in filename] *)
Fixpoint contains_dot (s : string) : bool :=
  match s with
  | EmptyString => false
  | String c s' => if decide (c = dot) then true else contains_dot s'
  end.

(** [filename.rsplit('.', 1)[1]]: what follows the last dot; [None] is the
    [IndexError] of a name without a dot. *)
Fixpoint after_last_dot (s : string) : option string :=
  match s with
  | EmptyString => None
  | String c s' =>
      match after_last_dot s' with
      | Some ext => Some ext
      | None => if decide (c = dot) then Some s' else None
      end
  end.

(** [str.lower()] on ASCII letters. *)
Definition lower_ascii (c : Ascii.ascii) : Ascii.ascii :=
  let n := Ascii.nat_of_ascii c in
  if (65 <=? n)%nat && (n <=? 90)%nat then Ascii.ascii_of_nat (n + 32) else c.

Fixpoint lower (s : string) : string :=
  match s with
  | EmptyString => EmptyString
  | String c s' => String (lower_ascii c) (lower s')
  end.

Definition ALLOWED_EXTENSIONS : list string := ["csv"].

(** [and] evaluates its right operand only when the left one holds. *)
Definition allowed_file (filename : string) : option bool :=
  if contains_dot filename
  then ext ← after_last_dot filename;
       Some (bool_decide (lower ext ∈ ALLOWED_EXTENSIONS))
  else Some false.

(** *** Budget goals *)

(** [class BudgetGoal(Base)] *)
Record BudgetGoal := mk_BudgetGoal {
  g_id : nat;
  g_category : string;
  g_monthly_limit : Qc;
  g_created_at : datetime;
  g_updated_at : datetime
}.

Record BudgetGoalData := mk_BudgetGoalData {
  bg_category : option string;
  bg_monthly_limit : Field Qc
}.

Definition next_goal_id (goals : list BudgetGoal) : nat :=
  S (foldr Nat.max 0%nat (map g_id goals)).

(** [db.query(BudgetGoal).filter_by(category=category).first()]: the
    first row of that category, with its position in the table. *)
Definition first_goal (category : string) (goals : list BudgetGoal)
  : option (nat * BudgetGoal) :=
  list_find (λ g, g_category g = category) goals.

Definition get_budget_goals (goals : list BudgetGoal)
  : Response (nat * list BudgetGoal) :=
  try_ (Some (Ok (length goals, goals))).

(** The view and the table after it; [now] is the reading of
    [datetime.utcnow()] during the request.  The body is the message and
    the row read back after the commit.  The table is a list, in which an
    updated row keeps its place; what the database itself refuses at the
    commit is outside this model. *)
Definition set_budget_goal (now : datetime) (goals : list BudgetGoal)
    (data : BudgetGoalData)
  : Response (string * BudgetGoal) * list BudgetGoal :=
  match
    (if negb (bool_decide (is_Some (bg_category data)))
        || negb (present (bg_monthly_limit data))
     then Some (BadRequest "Required fields: category, monthly_limit", goals)
     else
       category ← bg_category data;
       let existing_goal := first_goal category goals in
       '(message, goals') ←
         match existing_goal with
         | Some (i, g) =>
             monthly_limit ← convert (bg_monthly_limit data);
             Some ("Budget goal updated successfully",
                   <[i := mk_BudgetGoal (g_id g) (g_category g) monthly_limit
                                        (g_created_at g) now]> goals)
         | None =>
             monthly_limit ← convert (bg_monthly_limit data);
             Some ("Budget goal created successfully",
                   goals ++ [mk_BudgetGoal (next_goal_id goals) category
                                           monthly_limit now now])
         end;
       goal ← snd <$> first_goal category goals';
       Some (Created (message, goal), goals'))
  with
  | Some r => r
  | None => (ServerError, goals)
  end.

(** * Reference quantities

    What the properties below are stated against: the sums and rates of
    the specification, written over the records themselves. *)

(** The rows of one group. *)
Definition group {K} `{EqDecision K} (key : Row → K) (k : K) (df : DataFrame)
  : DataFrame :=
  filter (λ r, key r = k) df.

(** The expense records of one category. *)
Definition expenses_of (c : string) (df : DataFrame) : DataFrame :=
  filter (λ r, row_category r = c) (of_type "expense" df).

(** A rate against a baseline, before rounding: the quotient in percent
    when the baseline is positive, zero otherwise. *)
Definition rate (num base : Qc) : Qc :=
  if decide (0 < base) then num / base * hundred else 0.

Definition in_month (m : Z) (df : DataFrame) : DataFrame :=
  filter (λ r, to_period (row_date r) = m) df.

(** The income and the expenses of one month, before rounding. *)
Definition month_income (df : DataFrame) (m : Z) : Qc :=
  col_sum (map row_amount (in_month m (of_type "income" df))).
Definition month_expenses (df : DataFrame) (m : Z) : Qc :=
  col_sum (map Qcabs (map row_amount (in_month m (of_type "expense" df)))).

Definition month_entry (df : DataFrame) (m : Z) : MonthEntry :=
  let income := month_income df m in
  let expenses := month_expenses df m in
  mk_MonthEntry m (round2 income) (round2 expenses) (round2 (income - expenses))
                (round2 (rate (income - expenses) income)).

(** The records of a date range; an absent bound does not restrict. *)
Definition in_range (start_ end_ : option datetime) (t : Transaction) : Prop :=
  from_option (λ s, datetime_le s (t_date t)) True start_
  ∧ from_option (λ e, datetime_le (t_date t) e) True end_.

#[global] Instance in_range_dec s e t : Decision (in_range s e t).
Proof. unfold in_range. destruct s, e; cbn; apply _. Defined.

Definition records_in (db : list Transaction) (start_ end_ : option datetime)
  : list Transaction :=
  filter (in_range start_ end_) db.

(** Income total: the stored amounts of the income records. *)
Definition income_of (l : list Transaction) : Qc :=
  col_sum (map t_amount (filter (λ t, t_type t = INCOME) l)).

(** Expense total: the absolute amounts of the expense records. *)
Definition expenses_of_records (l : list Transaction) : Qc :=
  col_sum (map (λ t, Qcabs (t_amount t)) (filter (λ t, t_type t = EXPENSE) l)).

(** The expense amounts added up with their signs, as SQL's [SUM] does. *)
Definition raw_expenses_of (l : list Transaction) : Qc :=
  col_sum (map t_amount (filter (λ t, t_type t = EXPENSE) l)).

(** An expense record with its amount [x] replaced by [-x]; other records
    are left as they are. *)
Definition negate_expense (t : Transaction) : Transaction :=
  if decide (t_type t = EXPENSE)
  then mk_Transaction (t_id t) (t_date t) (t_category t) (- t_amount t)
                      (t_type t) (t_description t)
  else t.

Definition negate_expense_row (r : Row) : Row :=
  if decide (row_type r = "expense") then set_amount (- row_amount r) r else r.

(** An income record with its amount negated. *)
Definition negate_income (t : Transaction) : Transaction :=
  if decide (t_type t = INCOME)
  then mk_Transaction (t_id t) (t_date t) (t_category t) (- t_amount t)
                      (t_type t) (t_description t)
  else t.

(** The summary of a list of records, and the totals and changes of a
    comparison, as the specification defines them. *)
Definition summary_of (l : list Transaction) : Summary :=
  let income := income_of l in
  let expenses := expenses_of_records l in
  mk_Summary (round2 income) (round2 expenses) (round2 (income - expenses))
             (round2 (rate (income - expenses) income)).

Definition totals_of (range : datetime * datetime) (l : list Transaction)
  : PeriodTotals :=
  mk_PeriodTotals range (round2 (income_of l)) (round2 (expenses_of_records l))
                  (round2 (income_of l - expenses_of_records l)).

Definition changes_of (l1 l2 : list Transaction) : Changes :=
  let income_change := income_of l2 - income_of l1 in
  let expense_change := expenses_of_records l2 - expenses_of_records l1 in
  mk_Changes (round2 income_change)
             (round2 (rate income_change (income_of l1)))
             (round2 expense_change)
             (round2 (rate expense_change (expenses_of_records l1))).

(** Two rows that differ at most by the sign of an expense amount. *)
Definition same_but_expense_sign (r r' : Row) : Prop :=
  r' = r ∨ (row_type r = "expense" ∧ r' = set_amount (- row_amount r) r).

(** Reported values with two decimals. *)
Definition rounded_entry (e : MonthEntry) : Prop :=
  two_decimals (me_income e) ∧ two_decimals (me_expenses e)
  ∧ two_decimals (me_savings e) ∧ two_decimals (me_savings_rate e).

Definition rounded_summary (s : Summary) : Prop :=
  two_decimals (total_income s) ∧ two_decimals (total_expenses s)
  ∧ two_decimals (total_savings s) ∧ two_decimals (savings_rate s).

Definition rounded_totals (p : PeriodTotals) : Prop :=
  two_decimals (p_income p) ∧ two_decimals (p_expenses p)
  ∧ two_decimals (p_savings p).

Definition rounded_changes (c : Changes) : Prop :=
  two_decimals (income_change c) ∧ two_decimals (income_change_pct c)
  ∧ two_decimals (expense_change c) ∧ two_decimals (expense_change_pct c).

(** The fields of an entry as plain fractions. *)
Definition entry_fields (e : MonthEntry) : Z * Q * Q * Q * Q :=
  (me_month e, this (me_income e), this (me_expenses e), this (me_savings e),
   this (me_savings_rate e)).

(** ** Reference quantities for the record views *)

(** A request parameter that is present and not empty (truthy). *)
Definition given (o : option string) : option string :=
  match o with
  | Some s => if decide (s = EmptyString) then None else Some s
  | None => None
  end.

(** A string of ASCII characters, on which [upper] is [str.upper]. *)
Fixpoint ascii_only (s : string) : Prop :=
  match s with
  | EmptyString => True
  | String c s' => (Ascii.nat_of_ascii c < 128)%nat ∧ ascii_only s'
  end.

(** The type a listing asks for: none, a member of the enumeration, or
    ([None]) a name that is not a member. *)
Definition requested_type (o : option string)
  : option (option TransactionType) :=
  match given o with
  | None => Some None
  | Some s => Some <$> TransactionType_getitem (upper s)
  end.

(** The records a listing asks for. *)
Definition listed (start_ end_ : option datetime) (category : option string)
    (ty : option TransactionType) (t : Transaction) : Prop :=
  in_range start_ end_ t
  ∧ from_option (λ c, t_category t = c) True category
  ∧ from_option (λ y, t_type t = y) True ty.

#[global] Instance listed_dec s e c ty t : Decision (listed s e c ty t).
Proof. unfold listed. destruct c, ty; cbn; apply _. Defined.

(** A goal after an update to [monthly_limit] at time [now]. *)
Definition updated_goal (now : datetime) (monthly_limit : Qc) (g : BudgetGoal)
  : BudgetGoal :=
  mk_BudgetGoal (g_id g) (g_category g) monthly_limit (g_created_at g) now.

(** The goals of one category. *)
Definition goals_of (category : string) (goals : list BudgetGoal)
  : list BudgetGoal :=
  filter (λ g, g_category g = category) goals.

(** The year and month an entry is labelled with, and the calendar month
    after a given one. *)
Definition label (e : MonthEntry) : Z * Z :=
  (period_year (me_month e), period_month (me_month e)).

Definition next_month (ym : Z * Z) : Z * Z :=
  if decide (ym.2 = 12%Z) then (ym.1 + 1, 1)%Z else (ym.1, ym.2 + 1)%Z.

(** ** Sample data *)

Module Sample.

Definition on (y m d : Z) : datetime := mk_datetime y m d 0.

(** The scenario of the specification: two expenses on Food, of opposite
    signs, and a salary. *)
Definition food_jan := mk_Transaction 1 (on 2024 1 15) "Food" (money (-3000)) EXPENSE (Some EmptyString).
Definition food_feb := mk_Transaction 2 (on 2024 2 10) "Food" (money 2000) EXPENSE (Some EmptyString).
Definition salary_jan := mk_Transaction 3 (on 2024 1 20) "Salary" (money 100000) INCOME (Some EmptyString).
Definition scenario : list Transaction := [food_jan; food_feb; salary_jan].

(** The same with the second expense three months later. *)
Definition food_apr := mk_Transaction 2 (on 2024 4 10) "Food" (money 2000) EXPENSE (Some EmptyString).
Definition with_gap : list Transaction := [food_jan; food_apr; salary_jan].

(** An expense with three decimals. *)
Definition fuel := mk_Transaction 1 (on 2024 3 5) "Fuel" (Q2Qc (12345 # 1000)) EXPENSE (Some EmptyString).

Definition january := (on 2024 1 1, on 2024 1 31).
Definition february := (on 2024 2 1, on 2024 2 29).

End Sample.

(** * The views over the numbers of the interpreter

    The amounts of the source are floats, and its sums, differences,
    quotients and roundings are the operations of Python, numpy and
    pandas on them: a sum depends on the order of its terms, a rounded
    value need not be a decimal, a total can be infinite or not a number.
    [Arith] gathers the operations the views use with the four facts the
    guards rest on.  The views that compute a rate are written here over
    any such arithmetic, with the request parameters as the strings the
    views receive: what is proved of them holds of the floats, whatever
    the order in which pandas adds up a column. *)

Module Machine.

Class Arith := mk_Arith {
  (** the values of an amount column *)
  num : Type;
  (** the literals [0] and [100] *)
  zero : num;
  hundred : num;
  (** [a - b], [a * b] *)
  sub : num → num → num;
  mul : num → num → num;
  (** [a / b]; [None] when it raises *)
  div : num → num → option num;
  (** [.abs()] *)
  abs : num → num;
  (** [a > 0] *)
  positive : num → bool;
  (** [round(a, 2)] *)
  round2 : num → num;
  (** [.sum()] of a column, and of one group of [groupby(...).sum()] *)
  sum : list num → num;
  group_sum : list num → num;
  (** the sum of the empty column is 0, 0 is not positive, 0 rounds to 0,
      and a division by a positive number does not raise *)
  sum_nil : sum [] = zero;
  positive_zero : positive zero = false;
  round2_zero : round2 zero = zero;
  div_positive : ∀ a b, positive b = true → is_Some (div a b)
}.

Section views.
Context {A : Arith}.

(** [class Transaction(Base)] *)
Record Transaction := mk_Transaction {
  t_id : nat;
  t_date : datetime;
  t_category : string;
  t_amount : num;
  t_type : TransactionType;
  t_description : option string
}.

(** One row of the frame built by [get_transactions_as_dataframe]. *)
Record Row := mk_Row {
  row_id : nat;
  row_date : datetime;
  row_category : string;
  row_amount : num;
  row_type : string;
  row_description : option string
}.

Definition to_row (t : Transaction) : Row :=
  mk_Row (t_id t) (t_date t) (t_category t) (t_amount t) (value (t_type t))
         (t_description t).

(** [df.empty] *)
Definition df_empty (df : list Row) : bool :=
  match df with [] => true | _ => false end.

(** [df[df['type'] == ty]] *)
Definition of_type (ty : string) (df : list Row) : list Row :=
  filter (λ r, row_type r = ty) df.

Definition set_amount (a : num) (r : Row) : Row :=
  mk_Row (row_id r) (row_date r) (row_category r) a (row_type r)
         (row_description r).

(** [df['amount'] = df['amount'].abs()] *)
Definition abs_amounts (df : list Row) : list Row :=
  map (λ r, set_amount (abs (row_amount r)) r) df.

(** The amounts of each group, in the order of the rows. *)
Definition groups {K} `{Countable K} (key : Row → K) (df : list Row)
  : gmap K (list num) :=
  foldr (λ r m, <[key r := row_amount r :: default [] (m !! key r)]> m) ∅ df.

(** [df.groupby(key)['amount'].sum()]: one entry per key that occurs. *)
Definition groupby_sum {K} `{Countable K} (key : Row → K) (df : list Row)
  : gmap K num :=
  group_sum <$> groups key df.

(** [df['date'].min()] and [.max()] of a frame with first row [r]. *)
Definition date_min (r : Row) (rs : list Row) : datetime :=
  foldr (λ x d, datetime_min (row_date x) d) (row_date r) rs.
Definition date_max (r : Row) (rs : list Row) : datetime :=
  foldr (λ x d, datetime_max (row_date x) d) (row_date r) rs.

(** The bounds are the strings of the request, handed to the database as
    they are: [Missing] is an absent or empty one (falsy in
    [if start_date:]), [Value d] one that the database reads as the
    timestamp [d], [Malformed] one that it rejects, so that the query
    raises.  [None] stands for a raised exception. *)
Definition get_transactions_as_dataframe (db : list Transaction)
    (start_date end_date : Field datetime) : option (list Row) :=
  let query := db in
  query ←
    match start_date with
    | Missing => Some query
    | _ => s ← convert start_date;
           Some (filter (λ t, datetime_le s (t_date t)) query)
    end;
  query ←
    match end_date with
    | Missing => Some query
    | _ => e ← convert end_date;
           Some (filter (λ t, datetime_le (t_date t) e) query)
    end;
  Some (map to_row query).

Definition analyze_spending (df : list Row) : gmap string num :=
  if df_empty df then ∅
  else
    let expenses := abs_amounts (of_type "expense" df) in
    groupby_sum row_category expenses.

Record MonthEntry := mk_MonthEntry {
  me_month : Z;
  me_income : num;
  me_expenses : num;
  me_savings : num;
  me_savings_rate : num
}.

Definition analyze_monthly (df : list Row) : option (list MonthEntry) :=
  match df with
  | [] => Some []
  | r :: rs =>
      let month_of := λ x, to_period (row_date x) in
      let income_df := of_type "income" df in
      let expense_df := abs_amounts (of_type "expense" df) in
      let monthly_income := groupby_sum month_of income_df in
      let monthly_expenses := groupby_sum month_of expense_df in
      mapM (λ m,
              let income := default zero (monthly_income !! m) in
              let expenses := default zero (monthly_expenses !! m) in
              let savings := sub income expenses in
              savings_rate ←
                (if positive income
                 then q ← div savings income; Some (mul q hundred)
                 else Some zero);
              Some (mk_MonthEntry m (round2 income) (round2 expenses)
                                  (round2 savings) (round2 savings_rate)))
           (period_range (date_min r rs) (date_max r rs))
  end.

Record Summary := mk_Summary {
  total_income : num;
  total_expenses : num;
  total_savings : num;
  savings_rate : num
}.

Record Analysis := mk_Analysis {
  summary : Summary;
  category_spending : gmap string num;
  date_range_start : Z * Z * Z;
  date_range_end : Z * Z * Z
}.

Definition get_analysis (db : list Transaction)
    (start_date end_date : Field datetime) : Response Analysis :=
  try_
    (df ← get_transactions_as_dataframe db start_date end_date;
     match df with
     | [] => Some (NotFound "No transactions found")
     | r :: rs =>
         let category_spending := analyze_spending df in
         let total_income := sum (map row_amount (of_type "income" df)) in
         let total_expenses :=
           sum (map abs (map row_amount (of_type "expense" df))) in
         let total_savings := sub total_income total_expenses in
         rate ←
           (if positive total_income
            then q ← div total_savings total_income; Some (mul q hundred)
            else Some zero);
         Some (Ok (mk_Analysis
                     (mk_Summary (round2 total_income) (round2 total_expenses)
                                 (round2 total_savings) (round2 rate))
                     category_spending
                     (ymd (date_min r rs)) (ymd (date_max r rs))))
     end).

Record PeriodTotals := mk_PeriodTotals {
  p_date_range : Field datetime * Field datetime;
  p_income : num;
  p_expenses : num;
  p_savings : num
}.

Record Changes := mk_Changes {
  income_change : num;
  income_change_pct : num;
  expense_change : num;
  expense_change_pct : num
}.

Record Comparison := mk_Comparison {
  period1 : PeriodTotals;
  period2 : PeriodTotals;
  changes : Changes
}.

Definition compare_periods (db : list Transaction)
    (p1_start p1_end p2_start p2_end : Field datetime)
  : Response Comparison :=
  try_
    (if negb (present p1_start && present p1_end
              && present p2_start && present p2_end)
     then Some (BadRequest
       "Required parameters: period1_start, period1_end, period2_start, period2_end")
     else
       df1 ← get_transactions_as_dataframe db p1_start p1_end;
       let p1_income :=
         if negb (df_empty df1)
         then sum (map row_amount (of_type "income" df1)) else zero in
       let p1_expenses :=
         if negb (df_empty df1)
         then sum (map abs (map row_amount (of_type "expense" df1)))
         else zero in
       df2 ← get_transactions_as_dataframe db p2_start p2_end;
       let p2_income :=
         if negb (df_empty df2)
         then sum (map row_amount (of_type "income" df2)) else zero in
       let p2_expenses :=
         if negb (df_empty df2)
         then sum (map abs (map row_amount (of_type "expense" df2)))
         else zero in
       let income_change := sub p2_income p1_income in
       let expense_change := sub p2_expenses p1_expenses in
       income_change_pct ←
         (if positive p1_income
          then q ← div income_change p1_income; Some (mul q hundred)
          else Some zero);
       expense_change_pct ←
         (if positive p1_expenses
          then q ← div expense_change p1_expenses; Some (mul q hundred)
          else Some zero);
       Some (Ok (mk_Comparison
                   (mk_PeriodTotals (p1_start, p1_end)
                      (round2 p1_income) (round2 p1_expenses)
                      (round2 (sub p1_income p1_expenses)))
                   (mk_PeriodTotals (p2_start, p2_end)
                      (round2 p2_income) (round2 p2_expenses)
                      (round2 (sub p2_income p2_expenses)))
                   (mk_Changes (round2 income_change) (round2 income_change_pct)
                      (round2 expense_change) (round2 expense_change_pct))))).

(** ** What the views compute before they round *)

(** A bound that is given and read as a timestamp, or not given. *)
Definition bound (o : option datetime) : Field datetime :=
  match o with Some d => Value d | None => Missing end.

(** The records of a date range; an absent bound does not restrict. *)
Definition in_range (start_ end_ : option datetime) (t : Transaction) : Prop :=
  from_option (λ s, datetime_le s (t_date t)) True start_
  ∧ from_option (λ e, datetime_le (t_date t) e) True end_.

#[global] Instance in_range_decision s e t : Decision (in_range s e t).
Proof. unfold in_range. destruct s, e; cbn; apply _. Defined.

Definition records_in (db : list Transaction) (start_ end_ : option datetime)
  : list Transaction :=
  filter (in_range start_ end_) db.

(** The income total the views compute on the records [l]: the column sum
    of the stored amounts of the income records, in table order. *)
Definition income_of (l : list Transaction) : num :=
  sum (map t_amount (filter (λ t, t_type t = INCOME) l)).

(** The expense total they compute: the column sum of the absolute
    amounts of the expense records. *)
Definition expenses_of_records (l : list Transaction) : num :=
  sum (map (λ t, abs (t_amount t)) (filter (λ t, t_type t = EXPENSE) l)).

Definition in_month (m : Z) (df : list Row) : list Row :=
  filter (λ r, to_period (row_date r) = m) df.

(** The income and the expenses the monthly breakdown computes for one
    month: the grouped sum of the month's rows, the default 0 of
    [.get(month, 0)] for a month without such rows. *)
Definition month_income (df : list Row) (m : Z) : num :=
  match in_month m (of_type "income" df) with
  | [] => zero
  | l => group_sum (map row_amount l)
  end.
Definition month_expenses (df : list Row) (m : Z) : num :=
  match in_month m (of_type "expense" df) with
  | [] => zero
  | l => group_sum (map (λ r, abs (row_amount r)) l)
  end.

(** A reported rate against the baseline it was computed from: the
    rounded quotient in percent, which does not raise, when the baseline is
    positive, and 0 otherwise. *)
Definition guarded (numerator base reported : num) : Prop :=
  if positive base
  then ∃ q, div numerator base = Some q ∧ reported = round2 (mul q hundred)
  else reported = zero.

End views.

(** ** Binary floating point

    The arithmetic of IEEE 754 double precision numbers, with the
    operations of the processor.  A column is added up from the left,
    starting from 0, as numpy does for a short column (the properties
    below are proved for every [sum], so for every other order as well);
    [round2] is numpy's [round(x, 2)]: the nearest integer to [x * 100],
    ties to the even one, divided by 100.  A float division does not
    raise under the guards. *)

Definition two52 : float := 4503599627370496%float.

(** The sign bit, set also in [-0.0]. *)
Definition signbit (y : float) : bool :=
  match PrimFloat.classify y with
  | FloatClass.NNormal | FloatClass.NSubn | FloatClass.NZero | FloatClass.NInf => true
  | _ => false
  end.

(** [numpy.rint]: below [2^52] the nearest integer, ties to the even one,
    is reached by adding and taking away [2^52]; from there on every
    float is an integer.  The sign is kept. *)
Definition rint (y : float) : float :=
  if (PrimFloat.abs y <? two52)%float then
    let r := ((PrimFloat.abs y + two52) - two52)%float in
    if signbit y then (- r)%float else r
  else y.

Definition binary64 : Arith :=
  {| num := float;
     zero := 0%float;
     hundred := 100%float;
     sub := PrimFloat.sub;
     mul := PrimFloat.mul;
     div := λ a b, Some (a / b)%float;
     abs := PrimFloat.abs;
     positive := λ a, (0 <? a)%float;
     round2 := λ x, (rint (x * 100) / 100)%float;
     sum := λ l, fold_left PrimFloat.add l 0%float;
     group_sum := λ l, fold_left PrimFloat.add l 0%float;
     sum_nil := eq_refl;
     positive_zero := eq_refl;
     round2_zero := eq_refl;
     div_positive := λ a b _, mk_is_Some _ _ eq_refl |}.

(** Records with float amounts. *)
Definition income (id : nat) (date : datetime) (category : string)
    (amount : float) : Transaction (A := binary64) :=
  @mk_Transaction binary64 id date category amount INCOME (Some EmptyString).

Definition expense (id : nat) (date : datetime) (category : string)
    (amount : float) : Transaction (A := binary64) :=
  @mk_Transaction binary64 id date category amount EXPENSE (Some EmptyString).

(** Only a February salary of 500. *)
Definition salary_feb := income 2 (Sample.on 2024 2 20) "Salary" 500.
Definition february_only := [salary_feb]%list.

(** A refund booked as income with a negative sign, then the salary. *)
Definition chargeback := income 1 (Sample.on 2024 1 10) "Refund" (-100).
Definition negative_income := [chargeback; salary_feb].

(** A rent and no income. *)
Definition rent_jan := expense 1 (Sample.on 2024 1 5) "Rent" (-900).
Definition spending_only := [rent_jan]%list.

(** The rent against the salary. *)
Definition deficit := [rent_jan; salary_feb].

(** Incomes of 0.1, 0.2 and -0.3, which floats add up to a positive
    total, and a lunch. *)
Definition residue :=
  [income 1 (Sample.on 2024 1 10) "Fees" 0.1;
   income 2 (Sample.on 2024 1 11) "Fees" 0.2;
   income 3 (Sample.on 2024 1 12) "Refund" (-0.3);
   expense 4 (Sample.on 2024 1 13) "Food" 0.5].

(** An interest of 0.005 in January and of 0.015 in February. *)
Definition interest :=
  [income 1 (Sample.on 2024 1 31) "Interest" 0.005;
   income 2 (Sample.on 2024 2 29) "Interest" 0.015].

End Machine.

(** * Properties *)

(** ** Grouped sums *)

Section groupby.
Context {K : Type} `{Countable K}.
Variable key : Row → K.

Lemma groupby_sum_lookup (df : DataFrame) (k : K) :
  groupby_sum key df !! k =
    match group key k df with
    | [] => None
    | l => Some (col_sum (map row_amount l))
    end.
Proof.
  unfold group. induction df as [|r df IH]; [done|].
  cbn [groupby_sum foldr]. fold (groupby_sum key df).
  rewrite filter_cons. destruct (decide (key r = k)) as [->|Hne].
  - rewrite lookup_insert_eq, IH.
    destruct (filter _ df); cbn; [by rewrite Qcplus_0_r | done].
  - by rewrite lookup_insert_ne.
Qed.

Lemma groupby_sum_default (df : DataFrame) (k : K) :
  default 0 (groupby_sum key df !! k) = col_sum (map row_amount (group key k df)).
Proof. rewrite groupby_sum_lookup. by destruct (group key k df). Qed.

Lemma groupby_sum_None (df : DataFrame) (k : K) :
  groupby_sum key df !! k = None ↔ group key k df = [].
Proof. rewrite groupby_sum_lookup. by destruct (group key k df). Qed.

End groupby.

Lemma filter_abs_amounts (P : Row → Prop) `{∀ r, Decision (P r)} (df : DataFrame) :
  (∀ r a, P (set_amount a r) ↔ P r) →
  filter P (abs_amounts df) = abs_amounts (filter P df).
Proof.
  intros HP. induction df as [|r df IH]; [done|].
  change (abs_amounts (r :: df))
    with (set_amount (Qcabs (row_amount r)) r :: abs_amounts df).
  rewrite !filter_cons.
  destruct (decide (P r)) as [Hr|Hr].
  - rewrite decide_True by by apply HP. cbn. f_equal. apply IH.
  - rewrite decide_False by by rewrite HP. apply IH.
Qed.

Lemma map_amount_abs_amounts (df : DataFrame) :
  map row_amount (abs_amounts df) = map Qcabs (map row_amount df).
Proof. unfold abs_amounts. rewrite !map_map. done. Qed.

Lemma abs_amounts_nil_inv (df : DataFrame) : abs_amounts df = [] → df = [].
Proof. by destruct df. Qed.

(** ** Category spending *)

Lemma analyze_spending_unfold (df : DataFrame) :
  analyze_spending df = groupby_sum row_category (abs_amounts (of_type "expense" df)).
Proof. by destruct df. Qed.

Lemma analyze_spending_lookup (df : DataFrame) (c : string) :
  analyze_spending df !! c =
    match expenses_of c df with
    | [] => None
    | l => Some (col_sum (map Qcabs (map row_amount l)))
    end.
Proof.
  rewrite analyze_spending_unfold, groupby_sum_lookup. unfold group, expenses_of.
  rewrite filter_abs_amounts by done.
  destruct (filter _ (of_type "expense" df)) as [|r l]; [done|].
  by rewrite <- map_amount_abs_amounts.
Qed.

Lemma expenses_of_nonempty (df : DataFrame) (c : string) :
  expenses_of c df ≠ [] ↔
  ∃ r, r ∈ df ∧ row_type r = "expense" ∧ row_category r = c.
Proof.
  unfold expenses_of, of_type. split.
  - intros Hne. destruct (filter _ (filter _ df)) as [|r l] eqn:E; [done|].
    assert (r ∈ filter (λ r, row_category r = c) (filter (λ r, row_type r = "expense") df))
      as Hr by (rewrite E; left).
    apply list_elem_of_filter in Hr as [? Hr].
    apply list_elem_of_filter in Hr as [? Hr]. eauto.
  - intros (r & Hr & Ht & Hc) E.
    eapply (filter_nil_not_elem_of _ _ r); [exact E|exact Hc|].
    apply list_elem_of_filter. done.
Qed.

Lemma analyze_spending_single (r : Row) :
  row_type r = "expense" →
  analyze_spending [r] = {[ row_category r := Qcabs (row_amount r) ]}.
Proof.
  intros Hty. apply map_eq. intros c. rewrite analyze_spending_lookup.
  unfold expenses_of, of_type. rewrite filter_cons_True by done.
  rewrite filter_nil, filter_cons.
  destruct (decide (row_category r = c)) as [<-|Hne].
  - rewrite lookup_singleton_eq. cbn. f_equal. apply Qcplus_0_r.
  - by rewrite filter_nil, lookup_singleton_ne.
Qed.

(** [C1] The mapping returned by the category-spending aggregator has as
    keys exactly the categories with at least one expense record; its
    value at a category is the sum of [abs(amount)] over that category's
    expense records, and a category without expense records has no entry
    at all; the mapping is empty exactly when the collection has no
    expense record (in particular when it is empty). *)
Theorem analyze_spending_correct (df : DataFrame) :
  (∀ c, c ∈ dom (analyze_spending df) ↔
        ∃ r, r ∈ df ∧ row_type r = "expense" ∧ row_category r = c)
  ∧ (∀ c, analyze_spending df !! c =
          match expenses_of c df with
          | [] => None
          | l => Some (col_sum (map Qcabs (map row_amount l)))
          end)
  ∧ (analyze_spending df = ∅ ↔ of_type "expense" df = [])
  ∧ analyze_spending [] = ∅.
Proof.
  split_and!.
  - intros c. rewrite elem_of_dom, <- expenses_of_nonempty, analyze_spending_lookup.
    destruct (expenses_of c df); split; done.
  - apply analyze_spending_lookup.
  - split.
    + intros E. destruct (of_type "expense" df) as [|r l] eqn:El; [done|].
      exfalso. assert (analyze_spending df !! row_category r = None) as Hn
        by (rewrite E; apply lookup_empty).
      rewrite analyze_spending_lookup in Hn. unfold expenses_of in Hn.
      rewrite El, filter_cons_True in Hn by done. done.
    + intros E. rewrite analyze_spending_unfold, E. done.
  - done.
Qed.

(** ** Dates and months *)

Lemma datetime_le_iff (a b : datetime) :
  datetime_le a b ↔
  (year a < year b
   ∨ (year a = year b
      ∧ (month a < month b
         ∨ (month a = month b
            ∧ (day a < day b
               ∨ (day a = day b ∧ time_of_day a ≤ time_of_day b))))))%Z.
Proof.
  unfold datetime_le, datetime_leb.
  repeat case_decide; rewrite bool_decide_eq_true; lia.
Qed.

Lemma datetime_le_refl (a : datetime) : datetime_le a a.
Proof. rewrite datetime_le_iff. lia. Qed.

Lemma datetime_le_total (a b : datetime) : datetime_le a b ∨ datetime_le b a.
Proof. rewrite !datetime_le_iff. lia. Qed.

Lemma datetime_le_trans (a b c : datetime) :
  datetime_le a b → datetime_le b c → datetime_le a c.
Proof. rewrite !datetime_le_iff. lia. Qed.

Lemma datetime_le_antisym (a b : datetime) :
  datetime_le a b → datetime_le b a → a = b.
Proof.
  rewrite !datetime_le_iff. destruct a, b; cbn. intros ? ?. f_equal; lia.
Qed.

(** A later valid date falls in the same or a later month. *)
Lemma to_period_mono (a b : datetime) :
  valid_datetime a → valid_datetime b → datetime_le a b →
  (to_period a ≤ to_period b)%Z.
Proof. rewrite datetime_le_iff. unfold valid_datetime, to_period. lia. Qed.

Lemma period_year_month (d : datetime) :
  valid_datetime d →
  period_year (to_period d) = year d ∧ period_month (to_period d) = month d.
Proof.
  unfold valid_datetime, period_year, period_month, to_period. intros Hv.
  replace ((year d - 1970) * 12 + (month d - 1))%Z
    with ((month d - 1) + (year d - 1970) * 12)%Z by lia.
  rewrite Z.div_add, Z.mod_add by lia.
  rewrite Z.div_small, Z.mod_small by lia. lia.
Qed.

Lemma date_min_spec (r : Row) (rs : DataFrame) :
  (∃ x, x ∈ r :: rs ∧ date_min r rs = row_date x)
  ∧ ∀ x, x ∈ r :: rs → datetime_le (date_min r rs) (row_date x).
Proof.
  induction rs as [|y rs [(x & Hx & Ex) IH]]; cbn.
  - split; [exists r; split; [left|done]|].
    intros x ->%list_elem_of_singleton. apply datetime_le_refl.
  - fold (date_min r rs). unfold datetime_min.
    destruct (datetime_leb (row_date y) (date_min r rs)) eqn:E.
    + split; [exists y; split; [right; left|done]|].
      intros z [->|[->|Hz]%elem_of_cons]%elem_of_cons.
      * eapply datetime_le_trans; [exact E|]. apply IH. left.
      * apply datetime_le_refl.
      * eapply datetime_le_trans; [exact E|]. apply IH. by right.
    + split.
      * exists x. split; [|done].
        apply elem_of_cons in Hx as [->|Hx]; [left|right; by right].
      * intros z [->|[->|Hz]%elem_of_cons]%elem_of_cons.
        -- apply IH. left.
        -- destruct (datetime_le_total (date_min r rs) (row_date y)) as [?|Hc];
             [done|]. unfold datetime_le in Hc. congruence.
        -- apply IH. by right.
Qed.

Lemma date_max_spec (r : Row) (rs : DataFrame) :
  (∃ x, x ∈ r :: rs ∧ date_max r rs = row_date x)
  ∧ ∀ x, x ∈ r :: rs → datetime_le (row_date x) (date_max r rs).
Proof.
  induction rs as [|y rs [(x & Hx & Ex) IH]]; cbn.
  - split; [exists r; split; [left|done]|].
    intros x ->%list_elem_of_singleton. apply datetime_le_refl.
  - fold (date_max r rs). unfold datetime_max.
    destruct (datetime_leb (row_date y) (date_max r rs)) eqn:E.
    + split.
      * exists x. split; [|done].
        apply elem_of_cons in Hx as [->|Hx]; [left|right; by right].
      * intros z [->|[->|Hz]%elem_of_cons]%elem_of_cons.
        -- apply IH. left.
        -- exact E.
        -- apply IH. by right.
    + assert (datetime_le (date_max r rs) (row_date y)) as Hle.
      { destruct (datetime_le_total (date_max r rs) (row_date y)) as [?|Hc];
          [done|]. unfold datetime_le in Hc. congruence. }
      split; [exists y; split; [right; left|done]|].
      intros z [->|[->|Hz]%elem_of_cons]%elem_of_cons.
      * eapply datetime_le_trans; [|exact Hle]. apply IH. left.
      * apply datetime_le_refl.
      * eapply datetime_le_trans; [|exact Hle]. apply IH. by right.
Qed.

(** The earliest and the latest date of a frame are what [min()] and
    [max()] return. *)
Lemma date_min_unique (r : Row) (rs : DataFrame) (first : Row) :
  first ∈ r :: rs →
  (∀ x, x ∈ r :: rs → datetime_le (row_date first) (row_date x)) →
  date_min r rs = row_date first.
Proof.
  intros Hin Hle. destruct (date_min_spec r rs) as [(x & Hx & Ex) Hmin].
  apply datetime_le_antisym; [by apply Hmin|]. rewrite Ex. by apply Hle.
Qed.

Lemma date_max_unique (r : Row) (rs : DataFrame) (last : Row) :
  last ∈ r :: rs →
  (∀ x, x ∈ r :: rs → datetime_le (row_date x) (row_date last)) →
  date_max r rs = row_date last.
Proof.
  intros Hin Hle. destruct (date_max_spec r rs) as [(x & Hx & Ex) Hmax].
  apply datetime_le_antisym; [|by apply Hmax]. rewrite Ex. by apply Hle.
Qed.

Lemma StronglySorted_seqZ (m n : Z) : StronglySorted Z.lt (seqZ m n).
Proof.
  remember (Z.to_nat n) as k eqn:Ek. revert m n Ek.
  induction k as [|k IH]; intros m n Ek.
  - rewrite seqZ_nil by lia. constructor.
  - rewrite seqZ_cons by lia. constructor; [apply IH; lia|].
    apply Forall_forall. intros x Hx%elem_of_seqZ. lia.
Qed.

(** ** The guarded rate *)

(** The guard makes the division total: no exception is raised. *)
Lemma guarded_rate (num base : Qc) :
  (if decide (0 < base)
   then q ← py_div num base; Some (q * hundred)
   else Some 0) = Some (rate num base).
Proof.
  unfold rate, py_div. case_decide as Hpos; [|done].
  rewrite decide_False; [done|]. intros ->. by apply Qclt_not_eq in Hpos.
Qed.

Lemma rate_nonpositive (num base : Qc) : base ≤ 0 → rate num base = 0.
Proof. unfold rate. intros Hle. rewrite decide_False; [done|]. by apply Qcle_not_lt. Qed.

Lemma rate_zero (num : Qc) : rate num 0 = 0.
Proof. apply rate_nonpositive. apply Qcle_refl. Qed.

Lemma round2_zero : round2 0 = 0.
Proof. apply Qc_is_canon. reflexivity. Qed.

Lemma round2_two_decimals (x : Qc) : two_decimals (round2 x).
Proof. by eexists. Qed.

(** ** Monthly breakdown *)

Lemma mapM_total {A B} (f : A → option B) (g : A → B) (l : list A) :
  (∀ x, f x = Some (g x)) → mapM f l = Some (g <$> l).
Proof.
  intros Hfg. rewrite (mapM_ext f (λ x, Some (g x))) by done.
  induction l as [|x l IH]; [done|]. cbn. by rewrite IH.
Qed.

(** The breakdown never raises, and is the list of the entries of the
    months of the range. *)
Lemma analyze_monthly_cons (r : Row) (rs : DataFrame) :
  analyze_monthly (r :: rs) =
    Some (month_entry (r :: rs) <$> period_range (date_min r rs) (date_max r rs)).
Proof.
  unfold analyze_monthly. apply mapM_total. intros m.
  rewrite guarded_rate. cbn [mbind option_bind].
  rewrite !(groupby_sum_default (λ x, to_period (row_date x))).
  unfold month_entry, month_income, month_expenses, in_month, group.
  rewrite filter_abs_amounts by done. rewrite map_amount_abs_amounts. done.
Qed.

Lemma in_month_empty (df : DataFrame) (m : Z) :
  (∀ r, r ∈ df → to_period (row_date r) ≠ m) →
  ∀ ty, in_month m (of_type ty df) = [].
Proof.
  intros Hno ty. unfold in_month, of_type.
  destruct (filter _ (filter _ df)) as [|x l] eqn:E; [done|]. exfalso.
  assert (x ∈ filter (λ r, to_period (row_date r) = m) (filter (λ r, row_type r = ty) df))
    as Hx by (rewrite E; left).
  apply list_elem_of_filter in Hx as [Hm Hx].
  apply list_elem_of_filter in Hx as [_ Hx]. by apply (Hno x).
Qed.

(** [C2] The monthly breakdown of the empty collection is the empty
    sequence.  For a collection whose earliest record is [first] and whose
    latest record is [last], it has exactly one entry per calendar month
    from the month of [first] to the month of [last], both included, in
    ascending order; its length is that inclusive number of months (at
    least one); and a month in which no record falls appears with income 0
    and expenses 0. *)
Theorem analyze_monthly_gap_filling :
  analyze_monthly [] = Some []
  ∧ ∀ (df : DataFrame) (first last : Row),
      Forall (λ r, valid_datetime (row_date r)) df →
      first ∈ df → last ∈ df →
      (∀ r, r ∈ df → datetime_le (row_date first) (row_date r)) →
      (∀ r, r ∈ df → datetime_le (row_date r) (row_date last)) →
      let m_first := to_period (row_date first) in
      let m_last := to_period (row_date last) in
      ∃ result,
        analyze_monthly df = Some result
        ∧ me_month <$> result = seqZ m_first (m_last - m_first + 1)
        ∧ Z.of_nat (length result) = (m_last - m_first + 1)%Z
        ∧ (1 ≤ length result)%nat
        ∧ StronglySorted Z.lt (me_month <$> result)
        ∧ (∀ m, m ∈ me_month <$> result ↔ (m_first ≤ m ≤ m_last)%Z)
        ∧ ∀ e, e ∈ result →
               (∀ r, r ∈ df → to_period (row_date r) ≠ me_month e) →
               me_income e = 0 ∧ me_expenses e = 0.
Proof.
  split; [done|]. intros df first last Hvalid Hfirst Hlast Hmin Hmax m_first m_last.
  destruct df as [|r rs]; [by apply elem_of_nil in Hfirst|].
  rewrite analyze_monthly_cons.
  rewrite (date_min_unique r rs first), (date_max_unique r rs last) by done.
  unfold period_range. fold m_first m_last.
  assert (m_first ≤ m_last)%Z as Hle.
  { rewrite Forall_forall in Hvalid.
    apply to_period_mono; [by apply Hvalid|by apply Hvalid|by apply Hmin]. }
  assert (me_month <$> (month_entry (r :: rs) <$> seqZ m_first (m_last - m_first + 1))
          = seqZ m_first (m_last - m_first + 1)) as Hmonths.
  { rewrite <- list_fmap_compose. induction (seqZ _ _) as [|x l IH]; [done|].
    cbn. by f_equal. }
  eexists. split; [done|]. rewrite Hmonths. split_and!.
  - done.
  - rewrite length_fmap, length_seqZ. lia.
  - rewrite length_fmap, length_seqZ. lia.
  - apply StronglySorted_seqZ.
  - intros m. rewrite elem_of_seqZ. lia.
  - intros e (m & -> & Hm)%list_elem_of_fmap Hno.
    unfold month_entry in *. cbn [me_month me_income me_expenses] in *.
    unfold month_income, month_expenses.
    rewrite !(in_month_empty _ m Hno). cbn [map col_sum foldr].
    by rewrite round2_zero.
Qed.

(** The breakdown of January to April 2024 with nothing in February and
    March: four entries. *)
Lemma analyze_monthly_gap_filling_witness :
  ∃ result,
    analyze_monthly (to_row <$> Sample.with_gap) = Some result
    ∧ me_month <$> result = [648; 649; 650; 651]%Z
    ∧ length result = 4%nat.
Proof.
  destruct (proj2 analyze_monthly_gap_filling (to_row <$> Sample.with_gap)
              (to_row Sample.food_jan) (to_row Sample.food_apr))
    as (result & Hres & Hmonths & Hlen & _).
  - repeat constructor; unfold valid_datetime; cbn; lia.
  - left.
  - right; left.
  - intros r Hr. repeat (apply elem_of_cons in Hr as [->|Hr]); [done..|].
    by apply elem_of_nil in Hr.
  - intros r Hr. repeat (apply elem_of_cons in Hr as [->|Hr]); [done..|].
    by apply elem_of_nil in Hr.
  - exists result. split; [exact Hres|]. split; [exact Hmonths|].
    apply Nat2Z.inj. rewrite Hlen. reflexivity.
Defined.

(** ** From the table to the frame *)

Lemma filter_fmap_list {A B} (f : A → B) (P : B → Prop) `{∀ y, Decision (P y)}
    (l : list A) :
  filter P (f <$> l) = f <$> filter (λ x, P (f x)) l.
Proof.
  induction l as [|x l IH]; [done|].
  rewrite fmap_cons, !filter_cons. case_decide; [rewrite fmap_cons|]; by rewrite IH.
Qed.

Lemma filter_all {A} (P : A → Prop) `{∀ x, Decision (P x)} (l : list A) :
  (∀ x, P x) → filter P l = l.
Proof.
  intros HP. induction l as [|x l IH]; [done|].
  by rewrite filter_cons_True, IH.
Qed.

Lemma value_income (ty : TransactionType) : value ty = "income" ↔ ty = INCOME.
Proof. by destruct ty. Qed.

Lemma value_expense (ty : TransactionType) : value ty = "expense" ↔ ty = EXPENSE.
Proof. by destruct ty. Qed.

Lemma frame_is_records_in (db : list Transaction) (s e : option datetime) :
  get_transactions_as_dataframe db s e = to_row <$> records_in db s e.
Proof.
  unfold get_transactions_as_dataframe, records_in, in_range. f_equal.
  destruct s as [s|], e as [e|]; cbn.
  - rewrite list_filter_filter. apply list_filter_iff. tauto.
  - apply list_filter_iff. tauto.
  - apply list_filter_iff. tauto.
  - symmetry. by apply filter_all.
Qed.

Lemma frame_empty_iff (db : list Transaction) (s e : option datetime) :
  get_transactions_as_dataframe db s e = [] ↔ records_in db s e = [].
Proof. rewrite frame_is_records_in. by destruct (records_in db s e). Qed.

Lemma frame_income (l : list Transaction) :
  col_sum (map row_amount (of_type "income" (to_row <$> l))) = income_of l.
Proof.
  unfold of_type, income_of. rewrite filter_fmap_list.
  rewrite (list_filter_iff _ (λ t, t_type t = INCOME)) by (intros; apply value_income).
  f_equal. induction (filter _ l) as [|x l' IH]; [done|]. cbn. by f_equal.
Qed.

Lemma frame_expenses (l : list Transaction) :
  col_sum (map Qcabs (map row_amount (of_type "expense" (to_row <$> l))))
  = expenses_of_records l.
Proof.
  unfold of_type, expenses_of_records. rewrite filter_fmap_list.
  rewrite (list_filter_iff _ (λ t, t_type t = EXPENSE)) by (intros; apply value_expense).
  f_equal. induction (filter _ l) as [|x l' IH]; [done|]. cbn. by f_equal.
Qed.

(** ** The views, in closed form *)

Lemma get_analysis_eq (db : list Transaction) (s e : option datetime) :
  get_analysis db s e =
    match get_transactions_as_dataframe db s e with
    | [] => NotFound "No transactions found"
    | r :: rs =>
        Ok (mk_Analysis (summary_of (records_in db s e))
                        (analyze_spending (r :: rs))
                        (ymd (date_min r rs)) (ymd (date_max r rs)))
    end.
Proof.
  unfold get_analysis.
  destruct (get_transactions_as_dataframe db s e) as [|r rs] eqn:E; [done|].
  rewrite guarded_rate. cbn [mbind option_bind try_ default].
  rewrite <- E, frame_is_records_in, frame_income, frame_expenses. done.
Qed.

Lemma get_monthly_analysis_eq (db : list Transaction) (s e : option datetime) :
  get_monthly_analysis db s e =
    match get_transactions_as_dataframe db s e with
    | [] => NotFound "No transactions found"
    | r :: rs =>
        Ok (month_entry (r :: rs) <$> period_range (date_min r rs) (date_max r rs))
    end.
Proof.
  unfold get_monthly_analysis.
  destruct (get_transactions_as_dataframe db s e) as [|r rs] eqn:E; [done|].
  cbn [df_empty]. by rewrite analyze_monthly_cons.
Qed.

Lemma guarded_sum_income (l : list Transaction) :
  (if negb (df_empty (to_row <$> l))
   then col_sum (map row_amount (of_type "income" (to_row <$> l))) else 0)
  = income_of l.
Proof. destruct l; [done|]. cbn [fmap list_fmap df_empty negb]. apply (frame_income (_ :: _)). Qed.

Lemma guarded_sum_expenses (l : list Transaction) :
  (if negb (df_empty (to_row <$> l))
   then col_sum (map Qcabs (map row_amount (of_type "expense" (to_row <$> l))))
   else 0)
  = expenses_of_records l.
Proof. destruct l; [done|]. cbn [fmap list_fmap df_empty negb]. apply (frame_expenses (_ :: _)). Qed.

Lemma compare_periods_eq (db : list Transaction) (p1s p1e p2s p2e : datetime) :
  compare_periods db (Some p1s) (Some p1e) (Some p2s) (Some p2e) =
    let l1 := records_in db (Some p1s) (Some p1e) in
    let l2 := records_in db (Some p2s) (Some p2e) in
    Ok (mk_Comparison (totals_of (p1s, p1e) l1) (totals_of (p2s, p2e) l2)
                      (changes_of l1 l2)).
Proof.
  unfold compare_periods. rewrite !frame_is_records_in.
  rewrite !guarded_sum_income, !guarded_sum_expenses, !guarded_rate. done.
Qed.

(** ** No data *)

(** A request that matches at least one record is answered with a result,
    so the "no data" answer is given for the empty selection only. *)
Lemma not_found_only_when_empty (db : list Transaction) (s e : option datetime) :
  get_transactions_as_dataframe db s e ≠ [] →
  (∃ body, get_analysis db s e = Ok body)
  ∧ (∃ body, get_monthly_analysis db s e = Ok body).
Proof.
  intros Hne. rewrite get_analysis_eq, get_monthly_analysis_eq.
  destruct (get_transactions_as_dataframe db s e); [done|]. eauto.
Qed.

(** [C5] When the (optionally date-filtered) selection is empty, the
    analysis and the monthly breakdown both answer "No transactions found"
    with status 404: neither a result (200, zero-filled or not) nor the
    answer given when the computation raises (500). *)
Theorem empty_dataset_signalled (db : list Transaction) (s e : option datetime) :
  get_transactions_as_dataframe db s e = [] →
  get_analysis db s e = NotFound "No transactions found"
  ∧ get_monthly_analysis db s e = NotFound "No transactions found"
  ∧ status (get_analysis db s e) = 404%Z
  ∧ status (get_monthly_analysis db s e) = 404%Z
  ∧ (∀ body, get_analysis db s e ≠ Ok body)
  ∧ (∀ body, get_monthly_analysis db s e ≠ Ok body)
  ∧ get_analysis db s e ≠ ServerError
  ∧ get_monthly_analysis db s e ≠ ServerError
  ∧ status (get_analysis db s e) ≠ status (@ServerError Analysis)
  ∧ status (get_monthly_analysis db s e) ≠ status (@ServerError (list MonthEntry)).
Proof.
  intros Hempty. rewrite get_analysis_eq, get_monthly_analysis_eq, Hempty.
  split_and!; done.
Qed.

(** The empty table, and the scenario restricted to a year without
    records. *)
Lemma empty_dataset_signalled_witness :
  get_analysis [] None None = NotFound "No transactions found"
  ∧ get_monthly_analysis Sample.scenario
      (Some (Sample.on 2025 1 1)) (Some (Sample.on 2025 12 31))
    = NotFound "No transactions found".
Proof.
  split.
  - apply (empty_dataset_signalled [] None None). reflexivity.
  - apply (empty_dataset_signalled Sample.scenario
             (Some (Sample.on 2025 1 1)) (Some (Sample.on 2025 12 31))).
    reflexivity.
Defined.

(** ** Amounts with two decimals *)

Lemma Q2Qc_eq (p q : Q) : (p == q)%Q → Q2Qc p = Q2Qc q.
Proof. intros Hpq. apply Qc_is_canon. cbn. by rewrite !Qred_correct. Qed.

Lemma money_times_hundred (k : Z) : money k * hundred = Qc_of_Z k.
Proof.
  apply Qc_is_canon. unfold money, hundred, Qc_of_Z. cbn.
  rewrite !Qred_correct. unfold Qeq. cbn. lia.
Qed.

Lemma round_half_even_integer (k : Z) : round_half_even (Qc_of_Z k) = k.
Proof.
  unfold round_half_even. cbn [Qc_of_Z this]. rewrite Qfloor_Z.
  replace (Qc_of_Z k - Qc_of_Z k) with 0 by (symmetry; apply Qcplus_opp_r).
  by rewrite decide_True.
Qed.

(** Rounding leaves a value with two decimals as it is. *)
Lemma round2_money (k : Z) : round2 (money k) = money k.
Proof. unfold round2. by rewrite money_times_hundred, round_half_even_integer. Qed.

(** ** Reversed date ranges *)

(** A range whose end precedes its start selects nothing. *)
Lemma reversed_range_empty (db : list Transaction) (s e : datetime) :
  ¬ datetime_le s e → records_in db (Some s) (Some e) = [].
Proof.
  intros Hrev. unfold records_in.
  destruct (filter _ db) as [|t l] eqn:E; [done|]. exfalso.
  assert (t ∈ filter (in_range (Some s) (Some e)) db) as Ht by (rewrite E; left).
  apply list_elem_of_filter in Ht as [[Hs He] _]. cbn in Hs, He.
  apply Hrev. by eapply datetime_le_trans.
Qed.

(** ** Sign normalisation of expenses *)

Lemma same_sign_income (df df' : DataFrame) :
  Forall2 same_but_expense_sign df df' →
  of_type "income" df' = of_type "income" df.
Proof.
  intros Hsame. unfold of_type. induction Hsame as [|r r' l l' [->|[Hty ->]] _ IH]; [done|..].
  - rewrite !filter_cons. case_decide; by rewrite IH.
  - rewrite filter_cons_False, filter_cons_False; [done|..]; cbn; by rewrite Hty.
Qed.

Lemma same_sign_expenses (df df' : DataFrame) :
  Forall2 same_but_expense_sign df df' →
  abs_amounts (of_type "expense" df') = abs_amounts (of_type "expense" df).
Proof.
  intros Hsame. unfold of_type. induction Hsame as [|r r' l l' [->|[Hty ->]] _ IH]; [done|..].
  - rewrite !filter_cons. case_decide; [|done]. cbn. f_equal. apply IH.
  - rewrite !filter_cons_True by done. cbn. rewrite Qcabs_opp. f_equal. apply IH.
Qed.

Lemma same_sign_dates (df df' : DataFrame) :
  Forall2 same_but_expense_sign df df' →
  map row_date df' = map row_date df.
Proof.
  intros Hsame. induction Hsame as [|r r' l l' [->|[Hty ->]] _ IH]; [done|..]; cbn; by f_equal.
Qed.

Lemma same_sign_empty (df df' : DataFrame) :
  Forall2 same_but_expense_sign df df' → df_empty df' = df_empty df.
Proof. by destruct 1. Qed.

Lemma date_min_dates (r : Row) (rs : DataFrame) :
  date_min r rs = foldr datetime_min (row_date r) (map row_date rs).
Proof. unfold date_min. induction rs as [|x rs IH]; [done|]. cbn. by rewrite IH. Qed.

Lemma date_max_dates (r : Row) (rs : DataFrame) :
  date_max r rs = foldr datetime_max (row_date r) (map row_date rs).
Proof. unfold date_max. induction rs as [|x rs IH]; [done|]. cbn. by rewrite IH. Qed.

Lemma same_sign_analyze_spending (df df' : DataFrame) :
  Forall2 same_but_expense_sign df df' →
  analyze_spending df' = analyze_spending df.
Proof.
  intros Hsame. by rewrite !analyze_spending_unfold, (same_sign_expenses df df').
Qed.

Lemma same_sign_analyze_monthly (df df' : DataFrame) :
  Forall2 same_but_expense_sign df df' →
  analyze_monthly df' = analyze_monthly df.
Proof.
  intros Hsame. pose proof (same_sign_income _ _ Hsame) as Hi.
  pose proof (same_sign_expenses _ _ Hsame) as He.
  pose proof (same_sign_dates _ _ Hsame) as Hd.
  destruct Hsame as [|r r' rs rs' _ _]; [done|].
  unfold analyze_monthly. rewrite Hi, He, !date_min_dates, !date_max_dates.
  cbn in Hd. injection Hd as Hd1 Hd2. by rewrite Hd1, Hd2.
Qed.

Lemma same_sign_alter (df : DataFrame) (i : nat) :
  Forall2 same_but_expense_sign df (alter negate_expense_row i df).
Proof.
  revert i. induction df as [|r df IH]; intros i; [constructor|].
  destruct i as [|i]; cbn.
  - constructor; [|apply Forall_Forall2_diag, Forall_forall; by left].
    unfold negate_expense_row. case_decide; [by right|by left].
  - constructor; [by left|apply IH].
Qed.

Lemma to_row_negate_expense (t : Transaction) :
  to_row (negate_expense t) = negate_expense_row (to_row t).
Proof. unfold negate_expense, negate_expense_row. by destruct t as [? ? ? ? [] ?]. Qed.

Lemma Forall2_filter_same {A} (R : A → A → Prop) (P : A → Prop)
    `{∀ x, Decision (P x)} (l l' : list A) :
  (∀ x y, R x y → P x ↔ P y) →
  Forall2 R l l' → Forall2 R (filter P l) (filter P l').
Proof.
  intros HRP. induction 1 as [|x y l l' Hxy _ IH]; [constructor|].
  rewrite !filter_cons. destruct (decide (P x)) as [Hx|Hx].
  - rewrite decide_True by by apply (HRP x y). by constructor.
  - rewrite decide_False by by rewrite <- (HRP x y). done.
Qed.

Lemma same_sign_frame (db : list Transaction) (i : nat) (s e : option datetime) :
  Forall2 same_but_expense_sign
    (get_transactions_as_dataframe db s e)
    (get_transactions_as_dataframe (alter negate_expense i db) s e).
Proof.
  rewrite !frame_is_records_in. unfold records_in.
  apply Forall2_fmap.
  apply (Forall2_filter_same (λ t t', same_but_expense_sign (to_row t) (to_row t'))).
  - intros t t' [Ht|[_ Ht]]; unfold in_range;
      replace (t_date t') with (row_date (to_row t')) by done;
      rewrite Ht; done.
  - revert i. induction db as [|t db IH]; intros i; [constructor|].
    destruct i as [|i]; cbn.
    + constructor; [|apply Forall_Forall2_diag, Forall_forall; by left].
      rewrite to_row_negate_expense. unfold negate_expense_row.
      case_decide; [by right|by left].
    + constructor; [by left|apply IH].
Qed.

Lemma same_sign_totals (db : list Transaction) (i : nat) (s e : option datetime) :
  income_of (records_in (alter negate_expense i db) s e) = income_of (records_in db s e)
  ∧ expenses_of_records (records_in (alter negate_expense i db) s e)
    = expenses_of_records (records_in db s e).
Proof.
  pose proof (same_sign_frame db i s e) as Hsame.
  rewrite !frame_is_records_in in Hsame.
  rewrite <- !frame_income, <- !frame_expenses, <- !map_amount_abs_amounts.
  by rewrite (same_sign_income _ _ Hsame), (same_sign_expenses _ _ Hsame).
Qed.

(** [C4] Expense amounts enter every aggregate through their absolute
    value and income amounts with the sign they are stored with.
    Replacing the amount [x] of any expense record by [-x] therefore
    leaves the category spending, the monthly breakdown, the analysis
    (summary totals and category spending) and the period comparison
    unchanged.  The value of a category in the category spending is the
    sum of the absolute amounts of its expense rows, so that a single
    expense of [x] is reported as [abs x], whatever its sign; the summary,
    the monthly entries and the period totals are built from the income
    summed as stored and the expenses summed in absolute value; an income
    record is not corrected: negating the salary of the sample changes the
    analysis. *)
Theorem expense_sign_normalised :
  (∀ (df : DataFrame) (i : nat),
      analyze_spending (alter negate_expense_row i df) = analyze_spending df
      ∧ analyze_monthly (alter negate_expense_row i df) = analyze_monthly df)
  ∧ (∀ db i s e,
      get_analysis (alter negate_expense i db) s e = get_analysis db s e
      ∧ get_monthly_analysis (alter negate_expense i db) s e
        = get_monthly_analysis db s e)
  ∧ (∀ db i p1s p1e p2s p2e,
      compare_periods (alter negate_expense i db) p1s p1e p2s p2e
      = compare_periods db p1s p1e p2s p2e)
  ∧ (∀ db s e body,
      get_analysis db s e = Ok body →
      total_income (summary body) = round2 (income_of (records_in db s e))
      ∧ total_expenses (summary body)
        = round2 (expenses_of_records (records_in db s e)))
  ∧ (∀ r rs,
      analyze_monthly (r :: rs)
      = Some (month_entry (r :: rs) <$> period_range (date_min r rs) (date_max r rs)))
  ∧ (∀ db p1s p1e p2s p2e,
      compare_periods db (Some p1s) (Some p1e) (Some p2s) (Some p2e)
      = Ok (mk_Comparison
              (totals_of (p1s, p1e) (records_in db (Some p1s) (Some p1e)))
              (totals_of (p2s, p2e) (records_in db (Some p2s) (Some p2e)))
              (changes_of (records_in db (Some p1s) (Some p1e))
                          (records_in db (Some p2s) (Some p2e)))))
  ∧ (∀ t, t_type t = INCOME → income_of [t] = t_amount t)
  ∧ (∀ t, t_type t = EXPENSE → expenses_of_records [t] = Qcabs (t_amount t))
  ∧ get_analysis (alter negate_income 2%nat Sample.scenario) None None
    ≠ get_analysis Sample.scenario None None
  ∧ (∀ (df : DataFrame) c,
      analyze_spending df !! c =
        match expenses_of c df with
        | [] => None
        | l => Some (col_sum (map Qcabs (map row_amount l)))
        end)
  ∧ (∀ r : Row,
      row_type r = "expense" →
      analyze_spending [r] = {[ row_category r := Qcabs (row_amount r) ]})
  ∧ (∀ t body,
      t_type t = EXPENSE → get_analysis [t] None None = Ok body →
      category_spending body = {[ t_category t := Qcabs (t_amount t) ]}
      ∧ total_expenses (summary body) = round2 (Qcabs (t_amount t))).
Proof.
  split_and!; [| | | |apply analyze_monthly_cons|apply compare_periods_eq| | |
               |apply analyze_spending_lookup|apply analyze_spending_single| ].
  - intros df i. pose proof (same_sign_alter df i) as Hsame.
    by rewrite (same_sign_analyze_spending _ _ Hsame),
               (same_sign_analyze_monthly _ _ Hsame).
  - intros db i s e. pose proof (same_sign_frame db i s e) as Hsame. split.
    + rewrite !get_analysis_eq. destruct (same_sign_totals db i s e) as [Hi He].
      unfold summary_of. rewrite Hi, He.
      pose proof (same_sign_analyze_spending _ _ Hsame) as Hsp.
      pose proof (same_sign_dates _ _ Hsame) as Hd.
      destruct Hsame; [done|]. rewrite Hsp, !date_min_dates, !date_max_dates.
      cbn in Hd. injection Hd as Hd1 Hd2. by rewrite Hd1, Hd2.
    + unfold get_monthly_analysis.
      by rewrite (same_sign_empty _ _ Hsame), (same_sign_analyze_monthly _ _ Hsame).
  - intros db i [p1s|] [p1e|] [p2s|] [p2e|]; try done.
    rewrite !compare_periods_eq. cbn zeta. unfold totals_of, changes_of.
    destruct (same_sign_totals db i (Some p1s) (Some p1e)) as [-> ->].
    by destruct (same_sign_totals db i (Some p2s) (Some p2e)) as [-> ->].
  - intros db s e body. rewrite get_analysis_eq.
    destruct (get_transactions_as_dataframe db s e); [done|]. by intros [= <-].
  - intros t Ht. unfold income_of. rewrite filter_cons_True by done. cbn.
    apply Qcplus_0_r.
  - intros t Ht. unfold expenses_of_records. rewrite filter_cons_True by done. cbn.
    apply Qcplus_0_r.
  - intros Heq.
    apply (f_equal (λ r, match r with
                         | Ok b => this (total_income (summary b))
                         | _ => 0%Q
                         end)) in Heq.
    vm_compute in Heq. discriminate.
  - intros t body Ht. rewrite get_analysis_eq. cbn [get_transactions_as_dataframe map].
    intros [= <-]. cbn [category_spending summary total_expenses summary_of].
    split.
    + rewrite analyze_spending_single by (by apply value_expense). done.
    + f_equal. unfold records_in, expenses_of_records.
      rewrite filter_cons_True by done. rewrite filter_cons_True by done.
      cbn. apply Qcplus_0_r.
Qed.

(** An expense of -50 and an expense of 50 both contribute 50, to the
    category spending and to the total expenses; an income of -50 counts
    as -50. *)
Lemma expense_sign_normalised_witness :
  analyze_spending [mk_Row 1 (Sample.on 2024 1 1) "Food" (money (-5000)) "expense" None]
  = {[ "Food" := money 5000 ]}
  ∧ analyze_spending [mk_Row 1 (Sample.on 2024 1 1) "Food" (money 5000) "expense" None]
    = {[ "Food" := money 5000 ]}
  ∧ expenses_of_records
      [mk_Transaction 1 (Sample.on 2024 1 1) "Food" (money (-5000)) EXPENSE None]
    = money 5000
  ∧ expenses_of_records
      [mk_Transaction 1 (Sample.on 2024 1 1) "Food" (money 5000) EXPENSE None]
    = money 5000
  ∧ income_of
      [mk_Transaction 1 (Sample.on 2024 1 1) "Pay" (money (-5000)) INCOME None]
    = money (-5000).
Proof.
  pose proof expense_sign_normalised
    as (_ & _ & _ & _ & _ & _ & Hincome & Hexpense & _ & _ & Hsingle & _).
  assert (Qcabs (money (-5000)) = money 5000) as Hminus
    by (apply Qc_is_canon; reflexivity).
  assert (Qcabs (money 5000) = money 5000) as Hplus
    by (apply Qc_is_canon; reflexivity).
  split_and!.
  - rewrite Hsingle by reflexivity. cbn [row_category row_amount]. by rewrite Hminus.
  - rewrite Hsingle by reflexivity. cbn [row_category row_amount]. by rewrite Hplus.
  - rewrite Hexpense by reflexivity. exact Hminus.
  - rewrite Hexpense by reflexivity. exact Hplus.
  - rewrite Hincome by reflexivity. reflexivity.
Defined.

(** ** Global statistics *)

Lemma or_zero_sql_sum (ty : TransactionType) (db : list Transaction) :
  or_zero (sql_sum_amount ty db)
  = col_sum (map t_amount (filter (λ t, t_type t = ty) db)).
Proof.
  unfold or_zero, sql_sum_amount. destruct (filter _ db) as [|t l]; [done|].
  case_decide as Hz; [by rewrite Hz|done].
Qed.

Lemma get_stats_eq (db : list Transaction) :
  get_stats db =
    Ok (mk_Stats (length db)
          (round2 (income_of db))
          (round2 (Qcabs (raw_expenses_of db)))
          (round2 (income_of db + raw_expenses_of db))
          (length (remove_dups (map t_category db)))).
Proof. unfold get_stats. by rewrite !or_zero_sql_sum. Qed.

(** [C7] The global statistics add the expense amounts up with their
    signs and only then take the absolute value, and they add that signed
    sum to the income.  On the sample (expenses of -30 and 20, income
    1000) they report [total_expenses = 10] and [net_savings = 990], where
    the sum of the absolute amounts is 50 and income minus it is 950. *)
Theorem get_stats_signed_expense_sum :
  (∀ db, ∃ stats,
      get_stats db = Ok stats
      ∧ stats_total_expenses stats = round2 (Qcabs (raw_expenses_of db))
      ∧ net_savings stats = round2 (income_of db + raw_expenses_of db))
  ∧ ∃ stats,
      get_stats Sample.scenario = Ok stats
      ∧ stats_total_expenses stats = money 1000
      ∧ expenses_of_records Sample.scenario = money 5000
      ∧ net_savings stats = money 99000
      ∧ income_of Sample.scenario - expenses_of_records Sample.scenario
        = money 95000.
Proof.
  split.
  - intros db. eexists. split; [apply get_stats_eq|]. done.
  - eexists. split; [apply get_stats_eq|].
    cbn [stats_total_expenses net_savings].
    split_and!; apply Qc_is_canon; reflexivity.
Qed.

(** With expenses stored as positive amounts the net savings are income
    plus expenses. *)
Lemma get_stats_positive_expense :
  ∃ stats,
    get_stats [Sample.salary_jan; Sample.food_feb] = Ok stats
    ∧ stats_total_income stats = money 100000
    ∧ stats_total_expenses stats = money 2000
    ∧ net_savings stats = money 102000.
Proof.
  eexists. split; [apply get_stats_eq|].
  cbn [stats_total_income stats_total_expenses net_savings].
  split_and!; apply Qc_is_canon; reflexivity.
Qed.

(** ** The type of a new record *)

Lemma type_of_input_other (ty : string) : ty ≠ "income" → type_of_input ty = EXPENSE.
Proof. intros Hne. unfold type_of_input. by rewrite decide_False. Qed.

(** [C8] Creation and bulk import compare the type with the exact string
    ["income"] and store every other value as an expense: ["INCOME"],
    ["Income"] and ["refund"] are all stored as [EXPENSE] with status 201,
    none is rejected.  The listing view reads the same field through
    [TransactionType[type.upper()]], which accepts any case and raises on
    a value outside the enumeration. *)
Theorem type_of_input_not_validated :
  (∀ ty, ty ≠ "income" → type_of_input ty = EXPENSE)
  ∧ (∀ ty date category amount,
       ty ≠ "income" →
       create_transaction []
         (mk_TransactionData (Value date) (Some category) (Value amount) (Some ty) None)
       = (Created (mk_Transaction 1%nat date category amount EXPENSE (Some EmptyString)),
          [mk_Transaction 1%nat date category amount EXPENSE (Some EmptyString)]%list))
  ∧ create_transaction []
      (mk_TransactionData (Value (Sample.on 2024 1 20)) (Some "Salary")
                          (Value (money 100000)) (Some "INCOME") None)
    = (Created (mk_Transaction 1%nat (Sample.on 2024 1 20) "Salary" (money 100000)
                               EXPENSE (Some EmptyString)),
       [mk_Transaction 1%nat (Sample.on 2024 1 20) "Salary" (money 100000)
                       EXPENSE (Some EmptyString)]%list)
  ∧ create_transaction []
      (mk_TransactionData (Value (Sample.on 2024 1 20)) (Some "Misc")
                          (Value (money 100)) (Some "refund") None)
    = (Created (mk_Transaction 1%nat (Sample.on 2024 1 20) "Misc" (money 100)
                               EXPENSE (Some EmptyString)),
       [mk_Transaction 1%nat (Sample.on 2024 1 20) "Misc" (money 100)
                       EXPENSE (Some EmptyString)]%list)
  ∧ upload_csv []
      (mk_Csv ["date"; "category"; "amount"; "type"]
         [mk_CsvRow (Value (Sample.on 2024 1 20)) "Salary" (Value (money 100000))
                    "Income" None])
    = (Created 1%nat,
       [mk_Transaction 1%nat (Sample.on 2024 1 20) "Salary" (money 100000)
                       EXPENSE (Some EmptyString)]%list)
  ∧ TransactionType_getitem (upper "Income") = Some INCOME
  ∧ TransactionType_getitem (upper "refund") = None
  ∧ get_transactions Sample.scenario Missing Missing None (Some "refund")
    = ServerError.
Proof.
  split_and!; try reflexivity.
  - apply type_of_input_other.
  - intros ty date category amount Hne. unfold create_transaction. cbn.
    by rewrite type_of_input_other.
Qed.

(** ** Rounding of the reported values *)

(** Every amount and rate of the monthly breakdown, of the summary and of
    the comparison has two decimals. *)
Lemma reported_values_rounded :
  (∀ df result, analyze_monthly df = Some result → Forall rounded_entry result)
  ∧ (∀ db s e body, get_analysis db s e = Ok body → rounded_summary (summary body))
  ∧ (∀ db p1s p1e p2s p2e body,
       compare_periods db p1s p1e p2s p2e = Ok body →
       rounded_totals (period1 body) ∧ rounded_totals (period2 body)
       ∧ rounded_changes (changes body)).
Proof.
  split_and!.
  - intros [|r rs] result; [by intros [= <-]|].
    rewrite analyze_monthly_cons. intros [= <-].
    apply Forall_fmap, Forall_forall. intros m _.
    repeat split; apply round2_two_decimals.
  - intros db s e body. rewrite get_analysis_eq.
    destruct (get_transactions_as_dataframe db s e); [done|]. intros [= <-].
    repeat split; apply round2_two_decimals.
  - intros db [p1s|] [p1e|] [p2s|] [p2e|] body; try done.
    rewrite compare_periods_eq. intros [= <-].
    repeat split; apply round2_two_decimals.
Qed.

Lemma not_two_decimals_12345 : ¬ two_decimals (Q2Qc (12345 # 1000)).
Proof.
  intros [k Hk]. apply (f_equal this) in Hk. unfold money in Hk. cbn [this Q2Qc] in Hk.
  assert (12345 # 1000 == k # 100)%Q as Heq
    by (rewrite <- (Qred_correct (12345 # 1000)), <- (Qred_correct (k # 100)); by rewrite Hk).
  unfold Qeq in Heq. cbn in Heq. lia.
Qed.

(** [C9] The per-category values of the category spending are not
    rounded: a single expense of 12.345 is reported as 12.345 under its
    category, next to a [total_expenses] of 12.34 in the same answer. *)
Theorem category_spending_not_rounded :
  analyze_spending (to_row <$> [Sample.fuel]%list) !! "Fuel" = Some (Q2Qc (12345 # 1000))
  ∧ ¬ two_decimals (Q2Qc (12345 # 1000))
  ∧ ∃ body,
      get_analysis [Sample.fuel] None None = Ok body
      ∧ category_spending body !! "Fuel" = Some (Q2Qc (12345 # 1000))
      ∧ total_expenses (summary body) = money 1234.
Proof.
  assert (analyze_spending (to_row <$> [Sample.fuel]%list) !! "Fuel"
          = Some (Q2Qc (12345 # 1000))) as Hfuel.
  { rewrite analyze_spending_lookup. cbn. f_equal. apply Qc_is_canon. reflexivity. }
  split; [exact Hfuel|]. split; [apply not_two_decimals_12345|].
  eexists. split; [by rewrite get_analysis_eq|]. split; [exact Hfuel|].
  apply Qc_is_canon. reflexivity.
Qed.

(** ** The scenario of the specification, evaluated *)

Example scenario_category_spending :
  analyze_spending (to_row <$> Sample.scenario) !! "Food" = Some (money 5000)
  ∧ ∀ c, c ≠ "Food" → analyze_spending (to_row <$> Sample.scenario) !! c = None.
Proof.
  split.
  - rewrite analyze_spending_lookup. cbn. f_equal. apply Qc_is_canon. reflexivity.
  - intros c Hne. rewrite analyze_spending_lookup.
    destruct (expenses_of c (to_row <$> Sample.scenario)) as [|x l] eqn:E; [done|].
    exfalso.
    assert (expenses_of c (to_row <$> Sample.scenario) ≠ []) as Hex by by rewrite E.
    apply expenses_of_nonempty in Hex as (r & Hr & Ht & Hc).
    repeat (apply elem_of_cons in Hr as [->|Hr]); cbn in Ht, Hc; try congruence.
    by apply elem_of_nil in Hr.
Qed.

(** January: income 1000, expenses 30, savings 970, rate 97; February:
    income 0, expenses 20, savings -20, rate 0. *)
Example scenario_monthly_breakdown :
  option_map (map entry_fields) (analyze_monthly (map to_row Sample.scenario))
  = Some [ (648%Z, 1000%Q, 30%Q, 970%Q, 97%Q);
           (649%Z, 0%Q, 20%Q, (-20)%Q, 0%Q) ]%list.
Proof. vm_compute. reflexivity. Qed.

Example scenario_month_names :
  (period_year 648, period_month 648) = (2024, 1)%Z
  ∧ (period_year 649, period_month 649) = (2024, 2)%Z.
Proof. done. Qed.

(** * The guards, on the totals the views compute *)

Section machine.
Context {A : Machine.Arith}.

Lemma machine_groups_lookup {K} `{Countable K} (key : Machine.Row → K)
    (df : list Machine.Row) (k : K) :
  Machine.groups key df !! k =
    match filter (λ r, key r = k) df with
    | [] => None
    | l => Some (map Machine.row_amount l)
    end.
Proof.
  induction df as [|r df IH]; [done|].
  cbn [Machine.groups foldr]. fold (Machine.groups key df).
  rewrite filter_cons. destruct (decide (key r = k)) as [<-|Hne].
  - rewrite lookup_insert_eq, IH.
    by destruct (filter (λ r0, key r0 = key r) df).
  - by rewrite lookup_insert_ne.
Qed.

Lemma machine_groupby_sum_default {K} `{Countable K} (key : Machine.Row → K)
    (df : list Machine.Row) (k : K) :
  default Machine.zero (Machine.groupby_sum key df !! k) =
    match filter (λ r, key r = k) df with
    | [] => Machine.zero
    | l => Machine.group_sum (map Machine.row_amount l)
    end.
Proof.
  unfold Machine.groupby_sum. rewrite lookup_fmap, machine_groups_lookup.
  by destruct (filter (λ r, key r = k) df).
Qed.

Lemma machine_filter_abs_amounts (P : Machine.Row → Prop) `{∀ r, Decision (P r)}
    (df : list Machine.Row) :
  (∀ a r, P (Machine.set_amount a r) ↔ P r) →
  filter P (Machine.abs_amounts df) = Machine.abs_amounts (filter P df).
Proof.
  intros HP. unfold Machine.abs_amounts. induction df as [|r df IH]; [done|].
  rewrite map_cons, !filter_cons. destruct (decide (P r)) as [Hr|Hr].
  - rewrite decide_True by by apply HP. by rewrite map_cons, IH.
  - rewrite decide_False by by rewrite HP. done.
Qed.

Lemma machine_amount_abs_amounts (df : list Machine.Row) :
  map Machine.row_amount (Machine.abs_amounts df)
  = map (λ r, Machine.abs (Machine.row_amount r)) df.
Proof. unfold Machine.abs_amounts. by rewrite map_map. Qed.

Lemma machine_month_income (df : list Machine.Row) (m : Z) :
  default Machine.zero
    (Machine.groupby_sum (λ x, to_period (Machine.row_date x))
       (Machine.of_type "income" df) !! m)
  = Machine.month_income df m.
Proof. apply machine_groupby_sum_default. Qed.

Lemma machine_month_expenses (df : list Machine.Row) (m : Z) :
  default Machine.zero
    (Machine.groupby_sum (λ x, to_period (Machine.row_date x))
       (Machine.abs_amounts (Machine.of_type "expense" df)) !! m)
  = Machine.month_expenses df m.
Proof.
  rewrite machine_groupby_sum_default, machine_filter_abs_amounts by done.
  unfold Machine.month_expenses, Machine.in_month.
  destruct (filter _ (Machine.of_type "expense" df)) as [|r l]; [done|].
  by rewrite <- machine_amount_abs_amounts.
Qed.

(** The guarded quotient never raises, and what it yields is reported
    under the guard. *)
Lemma machine_rate_computed (numerator base : Machine.num) :
  ∃ x,
    (if Machine.positive base
     then q ← Machine.div numerator base; Some (Machine.mul q Machine.hundred)
     else Some Machine.zero) = Some x
    ∧ Machine.guarded numerator base (Machine.round2 x).
Proof.
  unfold Machine.guarded. destruct (Machine.positive base) eqn:Hpos.
  - destruct (Machine.div_positive numerator base Hpos) as [q Hq].
    rewrite Hq. eexists. split; [done|]. by exists q.
  - exists Machine.zero. split; [done|apply Machine.round2_zero].
Qed.

Lemma machine_guarded_not_positive (numerator base reported : Machine.num) :
  Machine.positive base = false →
  Machine.guarded numerator base reported → reported = Machine.zero.
Proof. unfold Machine.guarded. by intros ->. Qed.

Lemma machine_guarded_zero (numerator reported : Machine.num) :
  Machine.guarded numerator Machine.zero reported → reported = Machine.zero.
Proof. apply machine_guarded_not_positive, Machine.positive_zero. Qed.

Lemma machine_frame (db : list Machine.Transaction) (s e : option datetime) :
  Machine.get_transactions_as_dataframe db (Machine.bound s) (Machine.bound e)
  = Some (Machine.to_row <$> Machine.records_in db s e).
Proof.
  unfold Machine.get_transactions_as_dataframe, Machine.records_in, Machine.in_range.
  destruct s as [s|], e as [e|]; cbn; do 2 f_equal.
  - rewrite list_filter_filter. apply list_filter_iff. tauto.
  - apply list_filter_iff. tauto.
  - apply list_filter_iff. tauto.
  - symmetry. by apply filter_all.
Qed.

Lemma machine_frame_values (db : list Machine.Transaction) (s e : datetime) :
  Machine.get_transactions_as_dataframe db (Value s) (Value e)
  = Some (Machine.to_row <$> Machine.records_in db (Some s) (Some e)).
Proof. apply (machine_frame db (Some s) (Some e)). Qed.

Lemma machine_frame_income (l : list Machine.Transaction) :
  Machine.sum (map Machine.row_amount
                 (Machine.of_type "income" (Machine.to_row <$> l)))
  = Machine.income_of l.
Proof.
  unfold Machine.of_type, Machine.income_of. rewrite filter_fmap_list.
  rewrite (list_filter_iff _ (λ t, Machine.t_type t = INCOME))
    by (intros; apply value_income).
  f_equal. induction (filter _ l) as [|x l' IH]; [done|]. cbn. by f_equal.
Qed.

Lemma machine_frame_expenses (l : list Machine.Transaction) :
  Machine.sum (map Machine.abs
                 (map Machine.row_amount
                    (Machine.of_type "expense" (Machine.to_row <$> l))))
  = Machine.expenses_of_records l.
Proof.
  unfold Machine.of_type, Machine.expenses_of_records. rewrite filter_fmap_list.
  rewrite (list_filter_iff _ (λ t, Machine.t_type t = EXPENSE))
    by (intros; apply value_expense).
  f_equal. induction (filter _ l) as [|x l' IH]; [done|]. cbn. by f_equal.
Qed.

(** [... .sum() if not df.empty else 0] is the column sum in both cases. *)
Lemma machine_guarded_sum_income (l : list Machine.Transaction) :
  (if negb (Machine.df_empty (Machine.to_row <$> l))
   then Machine.sum (map Machine.row_amount
                       (Machine.of_type "income" (Machine.to_row <$> l)))
   else Machine.zero)
  = Machine.income_of l.
Proof.
  destruct l; [symmetry; apply Machine.sum_nil|].
  cbn [fmap list_fmap Machine.df_empty negb]. apply (machine_frame_income (_ :: _)).
Qed.

Lemma machine_guarded_sum_expenses (l : list Machine.Transaction) :
  (if negb (Machine.df_empty (Machine.to_row <$> l))
   then Machine.sum (map Machine.abs
                       (map Machine.row_amount
                          (Machine.of_type "expense" (Machine.to_row <$> l))))
   else Machine.zero)
  = Machine.expenses_of_records l.
Proof.
  destruct l; [symmetry; apply Machine.sum_nil|].
  cbn [fmap list_fmap Machine.df_empty negb]. apply (machine_frame_expenses (_ :: _)).
Qed.

Lemma machine_reversed_range_empty (db : list Machine.Transaction) (s e : datetime) :
  ¬ datetime_le s e → Machine.records_in db (Some s) (Some e) = [].
Proof.
  intros Hrev. unfold Machine.records_in.
  destruct (filter _ db) as [|t l] eqn:E; [done|]. exfalso.
  assert (t ∈ filter (Machine.in_range (Some s) (Some e)) db) as Ht
    by (rewrite E; left).
  apply list_elem_of_filter in Ht as [[Hs He] _]. cbn in Hs, He.
  apply Hrev. by eapply datetime_le_trans.
Qed.

(** The monthly breakdown of a frame with rows: it does not raise, and
    has one entry per month of the range, each with its rate under the
    guard on the month's income. *)
Lemma machine_analyze_monthly (r : Machine.Row) (rs : list Machine.Row) :
  ∃ result,
    Machine.analyze_monthly (r :: rs) = Some result
    ∧ Forall2 (λ m e,
        let income := Machine.month_income (r :: rs) m in
        let expenses := Machine.month_expenses (r :: rs) m in
        Machine.me_month e = m
        ∧ Machine.me_income e = Machine.round2 income
        ∧ Machine.me_expenses e = Machine.round2 expenses
        ∧ Machine.me_savings e = Machine.round2 (Machine.sub income expenses)
        ∧ Machine.guarded (Machine.sub income expenses) income
                          (Machine.me_savings_rate e))
      (period_range (Machine.date_min r rs) (Machine.date_max r rs)) result.
Proof.
  unfold Machine.analyze_monthly.
  induction (period_range (Machine.date_min r rs) (Machine.date_max r rs))
    as [|m months (result & Hresult & Hall)].
  - by exists [].
  - destruct (machine_rate_computed
                (Machine.sub (Machine.month_income (r :: rs) m)
                             (Machine.month_expenses (r :: rs) m))
                (Machine.month_income (r :: rs) m)) as (x & Hx & Hguard).
    eexists (_ :: result). split.
    + cbn [mapM]. rewrite machine_month_income, machine_month_expenses, Hx.
      cbn [mbind option_bind]. rewrite Hresult. reflexivity.
    + by constructor.
Qed.

(** The analysis of a selection with records. *)
Lemma machine_get_analysis (db : list Machine.Transaction) (s e : option datetime) :
  let l := Machine.records_in db s e in
  match l with
  | [] =>
      Machine.get_analysis db (Machine.bound s) (Machine.bound e)
      = NotFound "No transactions found"
  | _ =>
      ∃ body,
        Machine.get_analysis db (Machine.bound s) (Machine.bound e) = Ok body
        ∧ Machine.total_income (Machine.summary body)
          = Machine.round2 (Machine.income_of l)
        ∧ Machine.total_expenses (Machine.summary body)
          = Machine.round2 (Machine.expenses_of_records l)
        ∧ Machine.total_savings (Machine.summary body)
          = Machine.round2 (Machine.sub (Machine.income_of l)
                                        (Machine.expenses_of_records l))
        ∧ Machine.guarded
            (Machine.sub (Machine.income_of l) (Machine.expenses_of_records l))
            (Machine.income_of l)
            (Machine.savings_rate (Machine.summary body))
  end.
Proof.
  cbn zeta. unfold Machine.get_analysis. rewrite machine_frame.
  cbn [mbind option_bind].
  destruct (Machine.records_in db s e) as [|t l]; [done|].
  destruct (Machine.to_row <$> t :: l) as [|r rs] eqn:E; [discriminate E|].
  rewrite <- E, machine_frame_income, machine_frame_expenses.
  destruct (machine_rate_computed
              (Machine.sub (Machine.income_of (t :: l))
                           (Machine.expenses_of_records (t :: l)))
              (Machine.income_of (t :: l)))
    as (x & -> & Hguard).
  cbn [mbind option_bind try_ default]. by eexists.
Qed.

(** The comparison of two periods with all four bounds read as dates. *)
Lemma machine_compare_periods (db : list Machine.Transaction)
    (p1s p1e p2s p2e : datetime) :
  let l1 := Machine.records_in db (Some p1s) (Some p1e) in
  let l2 := Machine.records_in db (Some p2s) (Some p2e) in
  let income1 := Machine.income_of l1 in
  let income2 := Machine.income_of l2 in
  let expenses1 := Machine.expenses_of_records l1 in
  let expenses2 := Machine.expenses_of_records l2 in
  ∃ income_pct expense_pct,
    Machine.compare_periods db (Value p1s) (Value p1e) (Value p2s) (Value p2e)
    = Ok (Machine.mk_Comparison
            (Machine.mk_PeriodTotals (Value p1s, Value p1e)
               (Machine.round2 income1) (Machine.round2 expenses1)
               (Machine.round2 (Machine.sub income1 expenses1)))
            (Machine.mk_PeriodTotals (Value p2s, Value p2e)
               (Machine.round2 income2) (Machine.round2 expenses2)
               (Machine.round2 (Machine.sub income2 expenses2)))
            (Machine.mk_Changes
               (Machine.round2 (Machine.sub income2 income1)) income_pct
               (Machine.round2 (Machine.sub expenses2 expenses1)) expense_pct))
    ∧ Machine.guarded (Machine.sub income2 income1) income1 income_pct
    ∧ Machine.guarded (Machine.sub expenses2 expenses1) expenses1 expense_pct.
Proof.
  cbn zeta. unfold Machine.compare_periods. cbn [present andb negb].
  rewrite !machine_frame_values.
  cbn [mbind option_bind].
  rewrite !machine_guarded_sum_income, !machine_guarded_sum_expenses.
  destruct (machine_rate_computed
              (Machine.sub (Machine.income_of (Machine.records_in db (Some p2s) (Some p2e)))
                           (Machine.income_of (Machine.records_in db (Some p1s) (Some p1e))))
              (Machine.income_of (Machine.records_in db (Some p1s) (Some p1e))))
    as (x & -> & Hx).
  destruct (machine_rate_computed
              (Machine.sub (Machine.expenses_of_records (Machine.records_in db (Some p2s) (Some p2e)))
                           (Machine.expenses_of_records (Machine.records_in db (Some p1s) (Some p1e))))
              (Machine.expenses_of_records (Machine.records_in db (Some p1s) (Some p1e))))
    as (y & -> & Hy).
  by do 2 eexists.
Qed.

End machine.

(** ** Zero baselines *)

(** [C3] Every rate or percentage is decided on the baseline the view
    has computed: when that baseline is positive the view reports the
    rounded quotient [numerator / baseline * 100], and the division does
    not raise; otherwise, in particular when the baseline is 0, it reports
    exactly 0.  This holds of the monthly [savings_rate] (baseline: the
    month's income, 0 for a month without income), of the summary
    [savings_rate] (baseline: the total income) and of the comparison's
    [income_change_pct] and [expense_change_pct] (baselines: the income
    and the expenses of period 1), and each of these views answers with a
    result whenever it has records to work on. *)
Theorem rates_guarded_on_computed_baseline {A : Machine.Arith} :
  (∀ r rs, ∃ result,
      Machine.analyze_monthly (r :: rs) = Some result
      ∧ Forall2 (λ m e,
          let income := Machine.month_income (r :: rs) m in
          let savings := Machine.sub income (Machine.month_expenses (r :: rs) m) in
          Machine.me_month e = m
          ∧ Machine.guarded savings income (Machine.me_savings_rate e)
          ∧ (Machine.positive income = false →
             Machine.me_savings_rate e = Machine.zero)
          ∧ (income = Machine.zero → Machine.me_savings_rate e = Machine.zero))
        (period_range (Machine.date_min r rs) (Machine.date_max r rs)) result)
  ∧ (∀ db s e,
      let l := Machine.records_in db s e in
      let income := Machine.income_of l in
      let savings := Machine.sub income (Machine.expenses_of_records l) in
      l ≠ [] →
      ∃ body,
        Machine.get_analysis db (Machine.bound s) (Machine.bound e) = Ok body
        ∧ Machine.guarded savings income
                          (Machine.savings_rate (Machine.summary body))
        ∧ (Machine.positive income = false →
           Machine.savings_rate (Machine.summary body) = Machine.zero)
        ∧ (income = Machine.zero →
           Machine.savings_rate (Machine.summary body) = Machine.zero))
  ∧ (∀ db p1s p1e p2s p2e,
      let l1 := Machine.records_in db (Some p1s) (Some p1e) in
      let l2 := Machine.records_in db (Some p2s) (Some p2e) in
      let income1 := Machine.income_of l1 in
      let expenses1 := Machine.expenses_of_records l1 in
      let income_change := Machine.sub (Machine.income_of l2) income1 in
      let expense_change :=
        Machine.sub (Machine.expenses_of_records l2) expenses1 in
      ∃ body,
        Machine.compare_periods db (Value p1s) (Value p1e) (Value p2s) (Value p2e)
        = Ok body
        ∧ Machine.guarded income_change income1
                          (Machine.income_change_pct (Machine.changes body))
        ∧ Machine.guarded expense_change expenses1
                          (Machine.expense_change_pct (Machine.changes body))
        ∧ (Machine.positive income1 = false →
           Machine.income_change_pct (Machine.changes body) = Machine.zero)
        ∧ (Machine.positive expenses1 = false →
           Machine.expense_change_pct (Machine.changes body) = Machine.zero)
        ∧ (income1 = Machine.zero →
           Machine.income_change_pct (Machine.changes body) = Machine.zero)
        ∧ (expenses1 = Machine.zero →
           Machine.expense_change_pct (Machine.changes body) = Machine.zero)).
Proof.
  split_and!.
  - intros r rs. destruct (machine_analyze_monthly r rs) as (result & Hresult & Hall).
    exists result. split; [done|].
    eapply Forall2_impl; [exact Hall|]. cbn beta zeta.
    intros m e (Hm & _ & _ & _ & Hguard). split; [done|]. split; [done|].
    split; [intros Hpos; by eapply machine_guarded_not_positive|].
    intros Hzero. rewrite Hzero in Hguard. by eapply machine_guarded_zero.
  - intros db s e l income savings Hne.
    pose proof (machine_get_analysis db s e) as Hview. cbn zeta in Hview.
    fold l in Hview. destruct l as [|t l'] eqn:El; [done|].
    destruct Hview as (body & Hbody & _ & _ & _ & Hguard).
    exists body. split; [done|]. split; [done|].
    split; [intros Hpos; by eapply machine_guarded_not_positive|].
    intros Hzero. unfold income in Hzero. rewrite Hzero in Hguard.
    by eapply machine_guarded_zero.
  - intros db p1s p1e p2s p2e l1 l2 income1 expenses1 income_change expense_change.
    destruct (machine_compare_periods db p1s p1e p2s p2e)
      as (income_pct & expense_pct & Hbody & Hincome & Hexpenses).
    cbn zeta in Hbody, Hincome, Hexpenses.
    eexists. split; [exact Hbody|]. cbn [Machine.changes Machine.income_change_pct
                                          Machine.expense_change_pct].
    split; [done|]. split; [done|]. split_and!.
    + intros Hpos. by eapply machine_guarded_not_positive.
    + intros Hpos. by eapply machine_guarded_not_positive.
    + intros Hzero. fold l1 l2 in Hincome. fold income1 in Hincome.
      rewrite Hzero in Hincome. by eapply machine_guarded_zero.
    + intros Hzero. fold l1 l2 in Hexpenses. fold expenses1 in Hexpenses.
      rewrite Hzero in Hexpenses. by eapply machine_guarded_zero.
Qed.

(** The guard at work on floats.  A month and a table with a rent and no
    income have a savings rate of 0; the February salary alone, compared
    with an empty January, gives both percentages 0; a rent of 900 against
    a salary of 500 gives a savings rate of -80. *)
Lemma rates_guarded_on_computed_baseline_witness :
  (∃ body,
      Machine.get_analysis Machine.deficit Missing Missing = Ok body
      ∧ Machine.savings_rate (Machine.summary body) = (-80)%float)
  ∧ (∃ entry,
      Machine.analyze_monthly (Machine.to_row <$> Machine.spending_only)
      = Some [entry]%list
      ∧ Machine.me_savings_rate entry = 0%float)
  ∧ (∃ body,
      Machine.get_analysis Machine.spending_only Missing Missing = Ok body
      ∧ Machine.savings_rate (Machine.summary body) = 0%float)
  ∧ (∃ body,
      Machine.compare_periods Machine.february_only
        (Value (Sample.january.1)) (Value (Sample.january.2))
        (Value (Sample.february.1)) (Value (Sample.february.2)) = Ok body
      ∧ Machine.income_change_pct (Machine.changes body) = 0%float
      ∧ Machine.expense_change_pct (Machine.changes body) = 0%float).
Proof.
  destruct (rates_guarded_on_computed_baseline (A := Machine.binary64))
    as (Hmonthly & Hsummary & Hcompare).
  split_and!.
  - destruct (Hsummary Machine.deficit None None)
      as (body & Hbody & Hguard & _); [discriminate|].
    exists body. split; [exact Hbody|].
    vm_compute in Hguard. destruct Hguard as (q & Hq & Hrate).
    injection Hq as <-. exact Hrate.
  - destruct (Hmonthly (Machine.to_row Machine.rent_jan) [])
      as (result & Hresult & Hall).
    apply Forall2_cons_inv_l in Hall as (entry & rest & Hentry & Hrest & ->).
    apply Forall2_nil_inv_l in Hrest as ->.
    exists entry. split; [exact Hresult|].
    apply Hentry. reflexivity.
  - destruct (Hsummary Machine.spending_only None None)
      as (body & Hbody & _ & Hzero & _); [discriminate|].
    exists body. split; [exact Hbody|]. apply Hzero. reflexivity.
  - destruct (Hcompare Machine.february_only
                (Sample.january.1) (Sample.january.2)
                (Sample.february.1) (Sample.february.2))
      as (body & Hbody & _ & _ & Hincome & Hexpenses & _).
    exists body. split; [exact Hbody|]. split.
    + apply Hincome. reflexivity.
    + apply Hexpenses. reflexivity.
Defined.

(** Incomes of 0.1, 0.2 and -0.3 add up, in floats, to a total above 0:
    the guard is passed and a rate is reported. *)
Example residue_passes_the_guard :
  Machine.positive (Machine.income_of Machine.residue) = true
  ∧ ∃ body,
      Machine.get_analysis Machine.residue Missing Missing = Ok body
      ∧ Machine.savings_rate (Machine.summary body) ≠ 0%float.
Proof.
  split; [reflexivity|]. eexists. split; [vm_compute; reflexivity|].
  cbn [Machine.summary Machine.savings_rate]. intros Heq.
  apply (f_equal (λ x : float, (x <? 0)%float)) in Heq. discriminate Heq.
Qed.

(** ** Period comparison *)

(** [C6] For every two date ranges the comparison answers with a result.
    Each period reports its income and expenses: the rounded totals of its
    records, 0 and 0 for a period without records, in particular for a
    range that ends before it starts.  [income_change] and
    [expense_change] are the differences period 2 minus period 1 of the
    totals before rounding, rounded in their turn.  Each percentage is the
    change against the period 1 baseline, guarded: the rounded quotient
    when the computed baseline is positive, 0 otherwise. *)
Theorem compare_periods_answers {A : Machine.Arith}
    (db : list Machine.Transaction) (p1s p1e p2s p2e : datetime) :
  let l1 := Machine.records_in db (Some p1s) (Some p1e) in
  let l2 := Machine.records_in db (Some p2s) (Some p2e) in
  let income1 := Machine.income_of l1 in
  let income2 := Machine.income_of l2 in
  let expenses1 := Machine.expenses_of_records l1 in
  let expenses2 := Machine.expenses_of_records l2 in
  ∃ body,
    Machine.compare_periods db (Value p1s) (Value p1e) (Value p2s) (Value p2e)
    = Ok body
    ∧ Machine.p_income (Machine.period1 body) = Machine.round2 income1
    ∧ Machine.p_expenses (Machine.period1 body) = Machine.round2 expenses1
    ∧ Machine.p_income (Machine.period2 body) = Machine.round2 income2
    ∧ Machine.p_expenses (Machine.period2 body) = Machine.round2 expenses2
    ∧ Machine.income_change (Machine.changes body)
      = Machine.round2 (Machine.sub income2 income1)
    ∧ Machine.expense_change (Machine.changes body)
      = Machine.round2 (Machine.sub expenses2 expenses1)
    ∧ Machine.guarded (Machine.sub income2 income1) income1
                      (Machine.income_change_pct (Machine.changes body))
    ∧ Machine.guarded (Machine.sub expenses2 expenses1) expenses1
                      (Machine.expense_change_pct (Machine.changes body))
    ∧ (Machine.positive income1 = false →
       Machine.income_change_pct (Machine.changes body) = Machine.zero)
    ∧ (Machine.positive expenses1 = false →
       Machine.expense_change_pct (Machine.changes body) = Machine.zero)
    ∧ (l1 = [] →
       Machine.p_income (Machine.period1 body) = Machine.zero
       ∧ Machine.p_expenses (Machine.period1 body) = Machine.zero
       ∧ Machine.income_change_pct (Machine.changes body) = Machine.zero
       ∧ Machine.expense_change_pct (Machine.changes body) = Machine.zero)
    ∧ (l2 = [] →
       Machine.p_income (Machine.period2 body) = Machine.zero
       ∧ Machine.p_expenses (Machine.period2 body) = Machine.zero)
    ∧ (¬ datetime_le p1s p1e → l1 = [])
    ∧ (¬ datetime_le p2s p2e → l2 = []).
Proof.
  intros l1 l2 income1 income2 expenses1 expenses2.
  destruct (machine_compare_periods db p1s p1e p2s p2e)
    as (income_pct & expense_pct & Hbody & Hincome & Hexpenses).
  cbn zeta in Hbody, Hincome, Hexpenses.
  fold l1 l2 in Hbody, Hincome, Hexpenses.
  fold income1 income2 expenses1 expenses2 in Hbody, Hincome, Hexpenses.
  assert (l1 = [] → income1 = Machine.zero ∧ expenses1 = Machine.zero) as Hnil1.
  { unfold income1, expenses1. intros ->. split; apply Machine.sum_nil. }
  assert (l2 = [] → income2 = Machine.zero ∧ expenses2 = Machine.zero) as Hnil2.
  { unfold income2, expenses2. intros ->. split; apply Machine.sum_nil. }
  eexists. split; [exact Hbody|].
  cbn [Machine.period1 Machine.period2 Machine.changes Machine.p_income
       Machine.p_expenses Machine.income_change Machine.expense_change
       Machine.income_change_pct Machine.expense_change_pct].
  split_and!; try done.
  - intros Hpos. by eapply machine_guarded_not_positive.
  - intros Hpos. by eapply machine_guarded_not_positive.
  - intros Hl1. destruct (Hnil1 Hl1) as [Hi He]. rewrite Hi, He in *.
    rewrite Machine.round2_zero.
    split_and!; [done|done|by eapply machine_guarded_zero|by eapply machine_guarded_zero].
  - intros Hl2. destruct (Hnil2 Hl2) as [-> ->].
    by rewrite Machine.round2_zero.
  - apply machine_reversed_range_empty.
  - apply machine_reversed_range_empty.
Qed.

(** The scenario of the specification: no income in period 1 and 500 in
    period 2 give [income_change = 500] and [income_change_pct = 0]. *)
Lemma compare_periods_answers_witness :
  ∃ body,
    Machine.compare_periods Machine.february_only
      (Value (Sample.january.1)) (Value (Sample.january.2))
      (Value (Sample.february.1)) (Value (Sample.february.2)) = Ok body
    ∧ Machine.p_income (Machine.period1 body) = 0%float
    ∧ Machine.p_income (Machine.period2 body) = 500%float
    ∧ Machine.income_change (Machine.changes body) = 500%float
    ∧ Machine.income_change_pct (Machine.changes body) = 0%float.
Proof.
  destruct (compare_periods_answers (A := Machine.binary64) Machine.february_only
              (Sample.january.1) (Sample.january.2)
              (Sample.february.1) (Sample.february.2))
    as (body & Hbody & _ & _ & Hp2 & _ & Hchange & _ & _ & _ & _ & _ & Hp1 & _).
  exists body. split; [exact Hbody|].
  destruct (Hp1 eq_refl) as (Hi1 & _ & Hpct & _).
  split; [exact Hi1|]. split; [exact Hp2|]. split; [exact Hchange|exact Hpct].
Defined.

(** The reported change is not the difference of the two reported
    incomes: with an income of 0.005 in period 1 and of 0.015 in period 2
    the comparison reports the incomes 0 and 0.02 and the change 0.01. *)
Lemma reported_change_is_not_the_reported_difference :
  ∃ body,
    Machine.compare_periods Machine.interest
      (Value (Sample.january.1)) (Value (Sample.january.2))
      (Value (Sample.february.1)) (Value (Sample.february.2)) = Ok body
    ∧ Machine.p_income (Machine.period1 body) = 0%float
    ∧ Machine.p_income (Machine.period2 body) = 0.02%float
    ∧ Machine.income_change (Machine.changes body) = 0.01%float
    ∧ Machine.income_change (Machine.changes body)
      ≠ Machine.sub (Machine.p_income (Machine.period2 body))
                    (Machine.p_income (Machine.period1 body)).
Proof.
  eexists. split; [vm_compute; reflexivity|].
  cbn [Machine.period1 Machine.period2 Machine.changes Machine.p_income
       Machine.income_change].
  split; [reflexivity|]. split; [reflexivity|]. split; [reflexivity|].
  intros Heq. apply (f_equal (λ x : float, (x <? 0.015)%float)) in Heq.
  discriminate Heq.
Qed.

(** [C10] The percentage guard is strict.  Whenever the income total
    that the comparison computes for period 1 is not positive, in
    particular when it is negative (income amounts are summed with the
    sign they are stored with), [income_change_pct] is 0, while
    [income_change] is still the (rounded) signed difference period 2
    minus period 1. *)
Theorem not_positive_income_baseline {A : Machine.Arith}
    (db : list Machine.Transaction) (p1s p1e p2s p2e : datetime) :
  let income1 := Machine.income_of (Machine.records_in db (Some p1s) (Some p1e)) in
  let income2 := Machine.income_of (Machine.records_in db (Some p2s) (Some p2e)) in
  Machine.positive income1 = false →
  ∃ body,
    Machine.compare_periods db (Value p1s) (Value p1e) (Value p2s) (Value p2e)
    = Ok body
    ∧ Machine.p_income (Machine.period1 body) = Machine.round2 income1
    ∧ Machine.income_change_pct (Machine.changes body) = Machine.zero
    ∧ Machine.income_change (Machine.changes body)
      = Machine.round2 (Machine.sub income2 income1).
Proof.
  intros income1 income2 Hpos.
  destruct (machine_compare_periods db p1s p1e p2s p2e)
    as (income_pct & expense_pct & Hbody & Hincome & _).
  cbn zeta in Hbody, Hincome. eexists. split; [exact Hbody|].
  cbn [Machine.period1 Machine.changes Machine.p_income Machine.income_change
       Machine.income_change_pct].
  split; [done|]. split; [|done]. by eapply machine_guarded_not_positive.
Qed.

(** A January income of -100 against a February income of 500: the
    change is 600 and the percentage is 0. *)
Lemma not_positive_income_baseline_witness :
  ∃ body,
    Machine.compare_periods Machine.negative_income
      (Value (Sample.january.1)) (Value (Sample.january.2))
      (Value (Sample.february.1)) (Value (Sample.february.2)) = Ok body
    ∧ Machine.p_income (Machine.period1 body) = (-100)%float
    ∧ Machine.income_change_pct (Machine.changes body) = 0%float
    ∧ Machine.income_change (Machine.changes body) = 600%float.
Proof.
  destruct (not_positive_income_baseline (A := Machine.binary64)
              Machine.negative_income
              (Sample.january.1) (Sample.january.2)
              (Sample.february.1) (Sample.february.2))
    as (body & Hbody & Hincome & Hpct & Hchange); [reflexivity|].
  exists body. split; [exact Hbody|]. split; [exact Hincome|].
  split; [exact Hpct|exact Hchange].
Defined.

(** * Further properties of the views *)

(** ** Uploaded file names *)

Lemma app_String (c : Ascii.ascii) (s1 s2 : string) :
  String c s1 +:+ s2 = String c (s1 +:+ s2).
Proof. reflexivity. Qed.

Lemma contains_dot_app (s1 s2 : string) :
  contains_dot (s1 +:+ s2) = contains_dot s1 || contains_dot s2.
Proof.
  induction s1 as [|c s1 IH]; [done|]. rewrite app_String. cbn. by case_decide.
Qed.

Lemma after_last_dot_None (s : string) :
  after_last_dot s = None ↔ contains_dot s = false.
Proof.
  induction s as [|c s IH]; [done|]. cbn.
  destruct (after_last_dot s) as [ext|].
  - case_decide; [done|]. split; [done|]. intros Hs. by apply IH in Hs.
  - case_decide; [done|]. by rewrite <- IH.
Qed.

Lemma after_last_dot_app (stem ext : string) :
  contains_dot ext = false →
  after_last_dot (stem +:+ String dot ext) = Some ext.
Proof.
  intros Hext. apply after_last_dot_None in Hext.
  induction stem as [|c stem IH].
  - change (EmptyString +:+ String dot ext) with (String dot ext).
    cbn [after_last_dot]. by rewrite Hext, decide_True.
  - rewrite app_String. cbn [after_last_dot]. by rewrite IH.
Qed.

(** A name with a dot splits at its last dot. *)
Lemma split_at_last_dot (s : string) :
  contains_dot s = true →
  ∃ stem ext, s = stem +:+ String dot ext ∧ contains_dot ext = false.
Proof.
  induction s as [|c s IH]; [done|]. cbn. intros Hdot.
  destruct (contains_dot s) eqn:Hs.
  - destruct (IH eq_refl) as (stem & ext & -> & Hext).
    by exists (String c stem), ext.
  - case_decide as Hc; [|done]. subst c. by exists EmptyString, s.
Qed.

(** [X1] A file name is accepted exactly when the part after its last dot
    is [csv] in any letter case: a name without a dot is refused, and a
    name [stem.ext] whose extension has no further dot is accepted iff
    [ext.lower() == 'csv'].  Every name is of one of these two forms, and
    the indexing [rsplit('.', 1)[1]] never fails. *)
Theorem allowed_file_extension :
  (∀ filename, contains_dot filename = false → allowed_file filename = Some false)
  ∧ (∀ stem ext,
       contains_dot ext = false →
       allowed_file (stem +:+ String dot ext) = Some (bool_decide (lower ext = "csv")))
  ∧ (∀ filename,
       contains_dot filename = false
       ∨ ∃ stem ext, filename = stem +:+ String dot ext ∧ contains_dot ext = false)
  ∧ (∀ filename, is_Some (allowed_file filename)).
Proof.
  assert (∀ stem ext, contains_dot ext = false →
            allowed_file (stem +:+ String dot ext)
            = Some (bool_decide (lower ext = "csv"))) as Hsplit.
  { intros stem ext Hext. unfold allowed_file.
    rewrite contains_dot_app. cbn [contains_dot]. rewrite decide_True by done.
    rewrite orb_true_r, after_last_dot_app by done. cbn. f_equal.
    apply bool_decide_ext. unfold ALLOWED_EXTENSIONS.
    by rewrite list_elem_of_singleton. }
  split_and!.
  - intros filename Hno. unfold allowed_file. by rewrite Hno.
  - exact Hsplit.
  - intros filename. destruct (contains_dot filename) eqn:Hdot; [right|by left].
    by apply split_at_last_dot.
  - intros filename. destruct (contains_dot filename) eqn:Hdot.
    + destruct (split_at_last_dot _ Hdot) as (stem & ext & -> & Hext).
      by rewrite Hsplit.
    + unfold allowed_file. by rewrite Hdot.
Qed.

(** [data.CSV] is accepted, [notes.csv.txt] and [csv] are refused. *)
Lemma allowed_file_extension_witness :
  allowed_file "data.CSV" = Some true
  ∧ allowed_file "notes.csv.txt" = Some false
  ∧ allowed_file "csv" = Some false.
Proof.
  destruct allowed_file_extension as (Hnone & Hsplit & _).
  split_and!.
  - apply (Hsplit "data" "CSV"). reflexivity.
  - apply (Hsplit "notes.csv" "txt"). reflexivity.
  - apply Hnone. reflexivity.
Defined.

(** ** Listing records *)

Lemma get_transactions_eq (db : list Transaction) (start_ end_ : Field datetime)
    (category transaction_type : option string) (ty : option TransactionType) :
  start_ ≠ Malformed → end_ ≠ Malformed →
  requested_type transaction_type = Some ty →
  get_transactions db start_ end_ category transaction_type =
    let l := filter (listed (convert start_) (convert end_) (given category) ty) db in
    Ok (length l, l).
Proof.
  intros Hs He Hty. unfold get_transactions, requested_type, given in *.
  assert (∀ X, X = filter (listed (convert start_) (convert end_) (given category) ty) db →
               @Ok (nat * list Transaction) (length X, X)
               = Ok (length (filter (listed (convert start_) (convert end_)
                                      (given category) ty) db),
                     filter (listed (convert start_) (convert end_)
                               (given category) ty) db)) as Hok
    by (by intros X ->).
  destruct start_ as [| |s], end_ as [| |e]; try done;
    destruct category as [c|], transaction_type as [y|];
    cbn in Hty, Hok |- *; repeat case_decide;
    try (destruct (TransactionType_getitem (upper y)) as [ty'|]; [|done]);
    simplify_eq/=; apply Hok;
    rewrite ?list_filter_filter;
    first [ apply list_filter_iff; intros t; unfold listed, in_range; cbn; tauto
          | symmetry; apply filter_all; intros t; unfold listed, in_range; cbn; tauto ].
Qed.

(** [X2] With dates that parse and a type that names a member of the
    enumeration in any letter case (or no type), the listing answers 200
    with exactly the stored records inside the date range, of the given
    category and of the given type, in table order, and [count] is their
    number; an empty or absent parameter does not restrict. *)
Theorem get_transactions_filters (db : list Transaction)
    (start_ end_ : Field datetime) (category transaction_type : option string)
    (ty : option TransactionType) :
  start_ ≠ Malformed → end_ ≠ Malformed →
  requested_type transaction_type = Some ty →
  ∃ l,
    get_transactions db start_ end_ category transaction_type = Ok (length l, l)
    ∧ l `sublist_of` db
    ∧ ∀ t, t ∈ l ↔
           t ∈ db
           ∧ in_range (convert start_) (convert end_) t
           ∧ (∀ c, given category = Some c → t_category t = c)
           ∧ (∀ y, ty = Some y → t_type t = y).
Proof.
  intros Hs He Hty. eexists. split; [by apply get_transactions_eq|].
  split; [apply sublist_filter|].
  intros t. rewrite list_elem_of_filter. unfold listed.
  destruct (given category), ty; cbn; intuition (simplify_eq; eauto).
Qed.

(** Asking the sample for [Income] in January returns the salary and not
    the January expense. *)
Lemma get_transactions_filters_witness :
  ∃ l,
    get_transactions Sample.scenario
      (Value (Sample.january.1)) (Value (Sample.january.2)) None (Some "Income")
    = Ok (length l, l)
    ∧ Sample.salary_jan ∈ l ∧ Sample.food_jan ∉ l.
Proof.
  destruct (get_transactions_filters Sample.scenario
              (Value (Sample.january.1)) (Value (Sample.january.2))
              None (Some "Income") (Some INCOME))
    as (l & Hl & _ & Hin); [done|done|reflexivity|].
  exists l. split; [exact Hl|]. split.
  - apply Hin. split; [right; right; left|]. split; [done|]. split; [done|].
    by intros y [= <-].
  - intros [_ (_ & _ & Hty)]%Hin. by specialize (Hty INCOME eq_refl).
Defined.

(** [X3] With a type written in ASCII characters (or no type), the
    listing answers 500 exactly when a date does not parse or the type is
    a non-empty string that names no member of the enumeration; in every
    other case it answers 200, also when nothing matches (count 0): it
    never answers 400 or 404. *)
Theorem get_transactions_errors (db : list Transaction)
    (start_ end_ : Field datetime) (category transaction_type : option string) :
  from_option ascii_only True transaction_type →
  (get_transactions db start_ end_ category transaction_type = ServerError
   ↔ start_ = Malformed ∨ end_ = Malformed
     ∨ requested_type transaction_type = None)
  ∧ (get_transactions db start_ end_ category transaction_type ≠ ServerError →
     ∃ l, get_transactions db start_ end_ category transaction_type
          = Ok (length l, l))
  ∧ (∀ err, get_transactions db start_ end_ category transaction_type
            ≠ NotFound err)
  ∧ (∀ err, get_transactions db start_ end_ category transaction_type
            ≠ BadRequest err).
Proof.
  intros _.
  assert (start_ = Malformed ∨ end_ = Malformed
          ∨ requested_type transaction_type = None
          → get_transactions db start_ end_ category transaction_type = ServerError)
    as Hbad.
  { unfold get_transactions, requested_type, given.
    intros [->|[->|Hty]]; [done|by destruct start_|].
    destruct transaction_type as [y|]; [|done].
    destruct (decide (y = EmptyString)); [done|]. cbn in Hty.
    destruct (TransactionType_getitem (upper y)); [done|].
    by destruct start_, end_, category as [c|]; try destruct (decide (c = EmptyString)). }
  assert (start_ = Malformed ∨ start_ ≠ Malformed) as [Hs|Hs]
    by (destruct start_; auto);
    [rewrite Hbad by auto; split_and!; [by split; auto|done..]|].
  assert (end_ = Malformed ∨ end_ ≠ Malformed) as [He|He]
    by (destruct end_; auto);
    [rewrite Hbad by auto; split_and!; [by split; auto|done..]|].
  destruct (requested_type transaction_type) as [ty|] eqn:Hty;
    [|rewrite Hbad by auto; split_and!; [by split; auto|done..]].
  rewrite (get_transactions_eq _ _ _ _ _ ty) by done. cbn zeta.
  split_and!; [|eauto|done|done].
  split; [done|]. by intros [?|[?|?]].
Qed.

(** Asking the sample for the type [salary] is answered with 500, asking
    it for the expenses on Rent with a list. *)
Lemma get_transactions_errors_witness :
  get_transactions Sample.scenario Missing Missing None (Some "salary") = ServerError
  ∧ ∃ l, get_transactions Sample.scenario Missing Missing (Some "Rent") (Some "expense")
         = Ok (length l, l).
Proof.
  split.
  - apply (get_transactions_errors Sample.scenario Missing Missing None (Some "salary")).
    + cbn [from_option ascii_only]. repeat split; apply Nat.ltb_lt; reflexivity.
    + right; right. reflexivity.
  - destruct (get_transactions_errors Sample.scenario Missing Missing
                (Some "Rent") (Some "expense")) as (_ & Hok & _).
    + cbn [from_option ascii_only]. repeat split; apply Nat.ltb_lt; reflexivity.
    + apply Hok. discriminate.
Defined.

(** ** Creating records *)

(** [X4] Creating a record answers 400 exactly when one of [date],
    [category], [amount], [type] is missing, and the table is then left as
    it was; when all four are present but the date or the amount does not
    convert, it answers 500.  Whenever it answers 201, the record of the
    answer carries the date, the category and the amount of the request,
    the type that the comparison with ["income"] gives, and the
    description of the request, or the empty string without one. *)
Theorem create_transaction_outcome (db : list Transaction) (data : TransactionData) :
  let r := (create_transaction db data).1 in
  let db' := (create_transaction db data).2 in
  let complete :=
    present (d_date data) && bool_decide (is_Some (d_category data))
    && present (d_amount data) && bool_decide (is_Some (d_type data)) in
  (status r = 400%Z ↔ complete = false)
  ∧ (status r = 400%Z → db' = db)
  ∧ (complete = true →
     d_date data = Malformed ∨ d_amount data = Malformed → r = ServerError)
  ∧ (∀ t, r = Created t →
          d_date data = Value (t_date t)
          ∧ d_category data = Some (t_category t)
          ∧ d_amount data = Value (t_amount t)
          ∧ type_of_input <$> d_type data = Some (t_type t)
          ∧ t_description t = Some (default EmptyString (d_description data))).
Proof.
  destruct data as [[| |date] [category|] [| |amount] [ty|] description];
    cbn; repeat split; intros; simplify_eq/=;
    try done; try tauto; try (intuition discriminate).
Qed.

(** A salary is created as income, with the empty description. *)
Lemma create_transaction_outcome_witness :
  let data := mk_TransactionData (Value (Sample.on 2024 1 20)) (Some "Salary")
                                 (Value (money 100000)) (Some "income") None in
  ∃ t, (create_transaction [] data).1 = Created t
       ∧ t_type t = INCOME ∧ t_description t = Some EmptyString.
Proof.
  intros data.
  destruct (create_transaction [] data).1 as [|t| | |] eqn:Hr; try discriminate Hr.
  exists t. split; [reflexivity|].
  destruct (create_transaction_outcome [] data) as (_ & _ & _ & Hcreated).
  destruct (Hcreated t Hr) as (_ & _ & _ & Hty & Hdescription).
  split; [by injection Hty as <-|exact Hdescription].
Defined.

(** ** Budget goals *)

Lemma first_goal_insert (now : datetime) (goals : list BudgetGoal)
    (c : string) (l : Qc) (i : nat) (g : BudgetGoal) :
  first_goal c goals = Some (i, g) →
  first_goal c (<[i := updated_goal now l g]> goals)
  = Some (i, updated_goal now l g).
Proof.
  unfold first_goal. intros (Hi & Hc & Hfirst)%list_find_Some.
  apply list_find_insert_Some. right; left.
  split_and!; [done|done|by eapply lookup_lt_Some|done|done].
Qed.

Lemma first_goal_app (goals : list BudgetGoal) (g : BudgetGoal) (c : string) :
  g_category g = c →
  first_goal c goals = None →
  first_goal c (goals ++ [g]) = Some (length goals, g).
Proof.
  unfold first_goal. intros Hc Hnone. apply list_find_app_Some. right.
  split; [done|]. split; [done|]. rewrite Nat.sub_diag. cbn.
  by rewrite decide_True.
Qed.

Lemma set_budget_goal_update (now : datetime) (goals : list BudgetGoal)
    (c : string) (l : Qc) (i : nat) (g : BudgetGoal) :
  first_goal c goals = Some (i, g) →
  set_budget_goal now goals (mk_BudgetGoalData (Some c) (Value l))
  = (Created ("Budget goal updated successfully", updated_goal now l g),
     <[i := updated_goal now l g]> goals).
Proof.
  intros Hfind. unfold set_budget_goal. cbn. rewrite Hfind. cbn.
  fold (updated_goal now l g). by rewrite (first_goal_insert now goals c l i g).
Qed.

Lemma first_goal_None (c : string) (goals : list BudgetGoal) :
  first_goal c goals = None ↔ goals_of c goals = [].
Proof.
  unfold first_goal, goals_of. rewrite list_find_None. split.
  - intros Hall. induction Hall as [|g goals Hg _ IH]; [done|].
    by rewrite filter_cons_False.
  - intros Hnil. apply Forall_forall. intros g Hg Hc.
    by eapply (filter_nil_not_elem_of _ _ g Hnil).
Qed.

Lemma set_budget_goal_create (now : datetime) (goals : list BudgetGoal)
    (c : string) (l : Qc) :
  first_goal c goals = None →
  set_budget_goal now goals (mk_BudgetGoalData (Some c) (Value l))
  = (Created ("Budget goal created successfully",
              mk_BudgetGoal (next_goal_id goals) c l now now),
     goals ++ [mk_BudgetGoal (next_goal_id goals) c l now now]).
Proof.
  intros Hnone. unfold set_budget_goal. cbn. rewrite Hnone. cbn.
  by rewrite (first_goal_app goals (mk_BudgetGoal (next_goal_id goals) c l now now) c).
Qed.

Lemma categories_insert (goals : list BudgetGoal) (i : nat) (g g' : BudgetGoal) :
  goals !! i = Some g → g_category g' = g_category g →
  g_category <$> <[i := g']> goals = g_category <$> goals.
Proof.
  intros Hi Hcat. rewrite list_fmap_insert, Hcat. apply list_insert_id.
  by rewrite list_lookup_fmap, Hi.
Qed.

Lemma goals_of_insert_other (goals : list BudgetGoal) (i : nat)
    (g g' : BudgetGoal) (c : string) :
  goals !! i = Some g → g_category g' = g_category g → g_category g ≠ c →
  goals_of c (<[i := g']> goals) = goals_of c goals.
Proof.
  unfold goals_of. revert i. induction goals as [|x goals IH];
    intros i Hi Hcat Hne; [done|].
  destruct i as [|i]; cbn in Hi.
  - simplify_eq. change (<[0%nat := g']> (g :: goals)) with (g' :: goals).
    rewrite !filter_cons_False; [done|done|congruence].
  - change (<[S i := g']> (x :: goals)) with (x :: <[i := g']> goals).
    rewrite !filter_cons. by rewrite (IH i).
Qed.

(** In a table with one goal per category, the goals of a category are
    the one that is there. *)
Lemma goals_of_unique (goals : list BudgetGoal) (g : BudgetGoal) :
  NoDup (g_category <$> goals) → g ∈ goals →
  goals_of (g_category g) goals = [g]%list.
Proof.
  unfold goals_of. induction goals as [|x goals IH]; intros Hnd Hin;
    [by apply elem_of_nil in Hin|].
  rewrite fmap_cons in Hnd. apply NoDup_cons in Hnd as [Hx Hnd].
  apply elem_of_cons in Hin as [->|Hin].
  - rewrite filter_cons_True by done. f_equal.
    destruct (filter _ goals) as [|y l] eqn:E; [done|]. exfalso. apply Hx.
    assert (y ∈ filter (λ g, g_category g = g_category x) goals) as Hy
      by (rewrite E; left).
    apply list_elem_of_filter in Hy as [<- Hy]. by apply list_elem_of_fmap_2.
  - rewrite filter_cons_False; [by apply IH|].
    intros Hc. apply Hx. rewrite Hc. by apply list_elem_of_fmap_2.
Qed.

Lemma goals_of_app_other (goals : list BudgetGoal) (g : BudgetGoal) (c : string) :
  g_category g ≠ c → goals_of c (goals ++ [g]) = goals_of c goals.
Proof.
  intros Hne. unfold goals_of. rewrite filter_app, filter_cons_False by done.
  apply app_nil_r.
Qed.

(** What setting a goal with a category and a numeric limit does. *)
Lemma set_budget_goal_value (now : datetime) (goals : list BudgetGoal)
    (c : string) (l : Qc) :
  let r := (set_budget_goal now goals (mk_BudgetGoalData (Some c) (Value l))).1 in
  let goals' := (set_budget_goal now goals (mk_BudgetGoalData (Some c) (Value l))).2 in
  ∃ message goal,
    r = Created (message, goal)
    ∧ snd <$> first_goal c goals' = Some goal
    ∧ goal ∈ goals'
    ∧ g_category goal = c
    ∧ g_monthly_limit goal = l
    ∧ g_updated_at goal = now
    ∧ (∀ c', c' ≠ c → goals_of c' goals' = goals_of c' goals)
    ∧ match first_goal c goals with
      | Some (i, g) =>
          message = "Budget goal updated successfully"
          ∧ goals' = <[i := goal]> goals
          ∧ length goals' = length goals
          ∧ g_id goal = g_id g
          ∧ g_created_at goal = g_created_at g
      | None =>
          message = "Budget goal created successfully"
          ∧ goals' = goals ++ [goal]
          ∧ g_created_at goal = now
      end.
Proof.
  destruct (first_goal c goals) as [[i g]|] eqn:Hfind.
  - rewrite (set_budget_goal_update now goals c l i g Hfind). cbn [fst snd].
    pose proof Hfind as (Hi & Hc & _)%list_find_Some.
    do 2 eexists. split; [done|].
    rewrite (first_goal_insert now goals c l i g Hfind).
    split_and!; try done.
    + apply list_elem_of_lookup. exists i.
      apply list_lookup_insert_eq. by eapply lookup_lt_Some.
    + intros c' Hne. apply (goals_of_insert_other goals i g); [done|done|congruence].
    + apply length_insert.
  - rewrite (set_budget_goal_create now goals c l Hfind). cbn [fst snd].
    do 2 eexists. split; [done|].
    rewrite (first_goal_app goals (mk_BudgetGoal (next_goal_id goals) c l now now) c eq_refl Hfind).
    split_and!; try done.
    + apply elem_of_app. right. left.
    + intros c' Hne. by apply goals_of_app_other.
Qed.

Lemma next_goal_id_fresh (goals : list BudgetGoal) :
  next_goal_id goals ∉ g_id <$> goals.
Proof.
  assert (∀ i, i ∈ g_id <$> goals → (i ≤ foldr Nat.max 0 (map g_id goals))%nat) as Hmax.
  { induction goals as [|g goals IH]; intros i Hi; [by apply elem_of_nil in Hi|].
    cbn in Hi |- *. apply elem_of_cons in Hi as [->|Hi]; [lia|].
    specialize (IH i Hi). lia. }
  intros Hin. apply Hmax in Hin. unfold next_goal_id in Hin. lia.
Qed.

(** A 201 is answered to a category with a numeric limit only. *)
Lemma set_budget_goal_created (now : datetime) (goals : list BudgetGoal)
    (data : BudgetGoalData) (message : string) (goal : BudgetGoal) :
  (set_budget_goal now goals data).1 = Created (message, goal) →
  ∃ c l, data = mk_BudgetGoalData (Some c) (Value l).
Proof.
  destruct data as [[c|] [| |l]]; try (by cbn); [|by eexists _, _].
  unfold set_budget_goal. cbn. by destruct (first_goal c goals) as [[??]|].
Qed.

(** [X7] Whenever setting a goal answers 201, the request had a category
    and a numeric limit, and the row of the answer is a row of the new
    table with that category and that limit, whatever the sign of the
    limit.  The goals of every other category are as before.  If the
    category had a goal, the view answers "updated", the number of rows
    is unchanged and the row keeps its id and [created_at] and has
    [updated_at] at the time of the request; otherwise the view answers
    "created", there is one row more, and the id of the new row is one
    that no row had. *)
Theorem set_budget_goal_upsert (now : datetime) (goals : list BudgetGoal)
    (data : BudgetGoalData) (message : string) (goal : BudgetGoal) :
  (set_budget_goal now goals data).1 = Created (message, goal) →
  let goals' := (set_budget_goal now goals data).2 in
  ∃ c l,
    bg_category data = Some c
    ∧ bg_monthly_limit data = Value l
    ∧ g_category goal = c
    ∧ g_monthly_limit goal = l
    ∧ goal ∈ goals'
    ∧ (∀ c', c' ≠ c → goals_of c' goals' = goals_of c' goals)
    ∧ match first_goal c goals with
      | Some (_, g) =>
          message = "Budget goal updated successfully"
          ∧ length goals' = length goals
          ∧ g_id goal = g_id g
          ∧ g_created_at goal = g_created_at g
          ∧ g_updated_at goal = now
      | None =>
          message = "Budget goal created successfully"
          ∧ length goals' = S (length goals)
          ∧ g_id goal ∉ g_id <$> goals
      end.
Proof.
  intros Hr. cbn zeta.
  destruct (set_budget_goal_created now goals data message goal Hr) as (c & l & ->).
  exists c, l. split; [done|]. split; [done|]. revert Hr.
  destruct (first_goal c goals) as [[i g]|] eqn:Hfind.
  - rewrite (set_budget_goal_update now goals c l i g Hfind). cbn [fst snd].
    intros [= <- <-]. pose proof Hfind as (Hi & Hc & _)%list_find_Some.
    split_and!; try done.
    + apply list_elem_of_lookup. exists i.
      apply list_lookup_insert_eq. by eapply lookup_lt_Some.
    + intros c' Hne. apply (goals_of_insert_other goals i g); [done|done|congruence].
    + apply length_insert.
  - rewrite (set_budget_goal_create now goals c l Hfind). cbn [fst snd].
    intros [= <- <-]. split_and!; try done.
    + apply elem_of_app. right. left.
    + intros c' Hne. by apply goals_of_app_other.
    + by rewrite length_app, Nat.add_1_r.
    + apply next_goal_id_fresh.
Qed.

(** Lowering the Food goal of a table with goals for Food and Rent. *)
Lemma set_budget_goal_upsert_witness :
  let goals := [mk_BudgetGoal 1 "Food" (money 30000) (Sample.on 2024 1 1) (Sample.on 2024 1 1);
                mk_BudgetGoal 2 "Rent" (money 90000) (Sample.on 2024 1 1) (Sample.on 2024 1 1)] in
  let data := mk_BudgetGoalData (Some "Food") (Value (money 25000)) in
  ∃ message goal,
    (set_budget_goal (Sample.on 2024 5 1) goals data).1 = Created (message, goal)
    ∧ message = "Budget goal updated successfully"
    ∧ g_id goal = 1%nat
    ∧ g_monthly_limit goal = money 25000
    ∧ length (set_budget_goal (Sample.on 2024 5 1) goals data).2 = 2%nat.
Proof.
  intros goals data.
  destruct (set_budget_goal (Sample.on 2024 5 1) goals data).1
    as [|[message goal]| | |] eqn:Hr; try discriminate Hr.
  exists message, goal. split; [reflexivity|].
  destruct (set_budget_goal_upsert (Sample.on 2024 5 1) goals data message goal Hr)
    as (c & l & Hc & Hl & _ & Hlimit & _ & _ & Hcase).
  injection Hc as <-. injection Hl as <-.
  destruct Hcase as (Hmessage & Hlength & Hid & _).
  split; [exact Hmessage|]. split; [exact Hid|]. split; [exact Hlimit|exact Hlength].
Defined.

Ltac status_cases :=
  repeat split; intros; simplify_eq/=;
  try done; try (by left); try (by right); try (by right; left);
  try (by right; right); try (by eexists); try tauto;
  try (intuition discriminate); try (by destruct_and?; destruct_or?; simplify_eq).

(** [X8] Setting a goal answers 400 exactly when the category or the limit
    is missing, and the table is then left as it was; when both are
    present but the limit is not a number, it answers 500.  It answers 201
    only to a category with a numeric limit. *)
Theorem set_budget_goal_outcome (now : datetime) (goals : list BudgetGoal)
    (data : BudgetGoalData) :
  let r := (set_budget_goal now goals data).1 in
  let goals' := (set_budget_goal now goals data).2 in
  (status r = 400%Z ↔ bg_category data = None ∨ bg_monthly_limit data = Missing)
  ∧ (status r = 400%Z → goals' = goals)
  ∧ (is_Some (bg_category data) → bg_monthly_limit data = Malformed →
     r = ServerError)
  ∧ (status r = 201%Z →
     ∃ c l, bg_category data = Some c ∧ bg_monthly_limit data = Value l).
Proof.
  destruct data as [[c|] [| |l]].
  - cbn. status_cases.
  - assert (set_budget_goal now goals (mk_BudgetGoalData (Some c) Malformed)
            = (ServerError, goals)) as ->
      by (unfold set_budget_goal; cbn; by destruct (first_goal c goals) as [[??]|]).
    cbn. status_cases.
  - destruct (set_budget_goal_value now goals c l) as (message & goal & Hr & _).
    cbn zeta in Hr |- *. rewrite Hr. cbn. status_cases.
    by eexists _, _.
  - cbn. status_cases.
  - cbn. status_cases.
  - cbn. status_cases.
Qed.

(** A request without a limit is answered with 400, one with the limit
    ["a lot"] with 500. *)
Lemma set_budget_goal_outcome_witness :
  let now := Sample.on 2024 5 1 in
  status (set_budget_goal now [] (mk_BudgetGoalData (Some "Food") Missing)).1 = 400%Z
  ∧ (set_budget_goal now [] (mk_BudgetGoalData (Some "Food") Missing)).2 = []
  ∧ (set_budget_goal now [] (mk_BudgetGoalData (Some "Food") Malformed)).1 = ServerError.
Proof.
  intros now.
  destruct (set_budget_goal_outcome now [] (mk_BudgetGoalData (Some "Food") Missing))
    as (Hstatus & Hsame & _).
  destruct (set_budget_goal_outcome now [] (mk_BudgetGoalData (Some "Food") Malformed))
    as (_ & _ & Herror & _).
  assert (status (set_budget_goal now [] (mk_BudgetGoalData (Some "Food") Missing)).1
          = 400%Z) as H400 by (apply Hstatus; by right).
  split; [exact H400|]. split; [exact (Hsame H400)|].
  apply Herror; [by eexists|reflexivity].
Defined.

(** [X9] A table with at most one goal per category keeps that property
    under every request, and after a goal has been set for a category
    that category has exactly one goal: the row the view answers with. *)
Theorem set_budget_goal_unique (now : datetime) (goals : list BudgetGoal)
    (data : BudgetGoalData) :
  NoDup (g_category <$> goals) →
  NoDup (g_category <$> (set_budget_goal now goals data).2)
  ∧ ∀ message goal,
      (set_budget_goal now goals data).1 = Created (message, goal) →
      goals_of (g_category goal) (set_budget_goal now goals data).2 = [goal]%list.
Proof.
  intros Hnd.
  assert (NoDup (g_category <$> (set_budget_goal now goals data).2)) as Hnd'.
  { destruct data as [[c|] [| |l]]; try done;
      try (by unfold set_budget_goal; cbn; destruct (first_goal c goals) as [[??]|]).
    destruct (first_goal c goals) as [[i g]|] eqn:Hfind.
    - rewrite (set_budget_goal_update now goals c l i g Hfind). cbn [snd].
      apply list_find_Some in Hfind as (Hi & _).
      by rewrite (categories_insert goals i g (updated_goal now l g)).
    - rewrite (set_budget_goal_create now goals c l Hfind). cbn [snd].
      rewrite fmap_app. apply NoDup_app. split; [done|]. split; [|apply NoDup_singleton].
      intros c' (g & Hc' & Hg)%list_elem_of_fmap Hnew%list_elem_of_singleton.
      cbn in Hnew. subst c'. apply first_goal_None in Hfind.
      by eapply (filter_nil_not_elem_of _ _ g Hfind). }
  split; [done|]. intros message goal Hr. apply goals_of_unique; [done|].
  destruct data as [[c|] [| |l]]; try done;
    try (by unfold set_budget_goal in Hr; cbn in Hr;
            destruct (first_goal c goals) as [[??]|]).
  destruct (set_budget_goal_value now goals c l) as (m & g & Hr' & _ & Hin & _).
  cbn zeta in Hr', Hin. rewrite Hr in Hr'. by simplify_eq.
Qed.

(** A table with goals for Food and Rent stays one goal per category when
    the Food goal is set again. *)
Lemma set_budget_goal_unique_witness :
  let goals := [mk_BudgetGoal 1 "Food" (money 30000) (Sample.on 2024 1 1) (Sample.on 2024 1 1);
                mk_BudgetGoal 2 "Rent" (money 90000) (Sample.on 2024 1 1) (Sample.on 2024 1 1)] in
  NoDup (g_category <$>
           (set_budget_goal (Sample.on 2024 5 1) goals
              (mk_BudgetGoalData (Some "Food") (Value (money 25000)))).2).
Proof.
  intros goals.
  apply (set_budget_goal_unique (Sample.on 2024 5 1) goals
           (mk_BudgetGoalData (Some "Food") (Value (money 25000)))).
  by apply (bool_decide_unpack _).
Defined.

(** [X10] Once a goal has been set for a category, setting it again never
    adds a row: the view answers "updated" and the table keeps its
    length, whatever the new limit and the time.  Repeating the very same
    request at the same clock reading leaves the table unchanged. *)
Theorem set_budget_goal_again (now : datetime) (goals : list BudgetGoal)
    (c : string) (l : Qc) :
  let goals1 := (set_budget_goal now goals (mk_BudgetGoalData (Some c) (Value l))).2 in
  (∀ now2 l2, ∃ goal2,
      (set_budget_goal now2 goals1 (mk_BudgetGoalData (Some c) (Value l2))).1
      = Created ("Budget goal updated successfully", goal2)
      ∧ g_monthly_limit goal2 = l2
      ∧ length (set_budget_goal now2 goals1
                  (mk_BudgetGoalData (Some c) (Value l2))).2
        = length goals1)
  ∧ (set_budget_goal now goals1 (mk_BudgetGoalData (Some c) (Value l))).2 = goals1.
Proof.
  intros goals1.
  destruct (set_budget_goal_value now goals c l)
    as (message & goal & _ & Hfirst & _ & _ & Hl & Hnow & _).
  cbn zeta in Hfirst. fold goals1 in Hfirst.
  destruct (first_goal c goals1) as [[j g]|] eqn:Hfind; [|done].
  cbn in Hfirst. injection Hfirst as ->. split.
  - intros now2 l2. rewrite (set_budget_goal_update now2 goals1 c l2 j goal Hfind).
    eexists. split; [done|]. split; [done|]. apply length_insert.
  - rewrite (set_budget_goal_update now goals1 c l j goal Hfind). cbn [snd].
    apply list_find_Some in Hfind as (Hj & _).
    apply list_insert_id. rewrite Hj. f_equal.
    destruct goal. cbn in Hl, Hnow. by subst.
Qed.

(** ** Date ranges of the analysis *)

(** [X11] A date range whose end precedes its start selects nothing: the
    analysis and the monthly breakdown answer 404 "No transactions
    found", whatever the table holds. *)
Theorem reversed_range_not_found (db : list Transaction) (s e : datetime) :
  ¬ datetime_le s e →
  get_analysis db (Some s) (Some e) = NotFound "No transactions found"
  ∧ get_monthly_analysis db (Some s) (Some e) = NotFound "No transactions found".
Proof.
  intros Hrev. rewrite get_analysis_eq, get_monthly_analysis_eq.
  by rewrite frame_is_records_in, reversed_range_empty.
Qed.

Lemma reversed_range_not_found_witness :
  get_analysis Sample.scenario (Some (Sample.on 2024 12 31)) (Some (Sample.on 2024 1 1))
  = NotFound "No transactions found".
Proof.
  apply (reversed_range_not_found Sample.scenario
           (Sample.on 2024 12 31) (Sample.on 2024 1 1)).
  vm_compute. discriminate.
Defined.

(** [X12] The date range reported by the analysis is made of the calendar
    dates of two selected records, the earliest and the latest: every
    selected record lies between them. *)
Theorem get_analysis_date_range (db : list Transaction) (s e : option datetime)
    (body : Analysis) :
  get_analysis db s e = Ok body →
  ∃ first last,
    first ∈ records_in db s e ∧ last ∈ records_in db s e
    ∧ date_range_start body = ymd (t_date first)
    ∧ date_range_end body = ymd (t_date last)
    ∧ datetime_le (t_date first) (t_date last)
    ∧ ∀ t, t ∈ records_in db s e →
           datetime_le (t_date first) (t_date t)
           ∧ datetime_le (t_date t) (t_date last).
Proof.
  rewrite get_analysis_eq. pose proof (frame_is_records_in db s e) as Hframe.
  destruct (get_transactions_as_dataframe db s e) as [|r rs]; [done|].
  intros [= <-]. cbn [date_range_start date_range_end].
  destruct (date_min_spec r rs) as [(x & Hx & Ex) Hmin].
  destruct (date_max_spec r rs) as [(y & Hy & Ey) Hmax].
  rewrite Hframe in Hx, Hy.
  apply list_elem_of_fmap in Hx as (first & -> & Hfirst).
  apply list_elem_of_fmap in Hy as (last & -> & Hlast).
  assert (∀ t, t ∈ records_in db s e →
               datetime_le (t_date first) (t_date t)
               ∧ datetime_le (t_date t) (t_date last)) as Hall.
  { intros t Ht. assert (to_row t ∈ r :: rs) as Hrow
      by (rewrite Hframe; by apply list_elem_of_fmap_2).
    split.
    - specialize (Hmin _ Hrow). by rewrite Ex in Hmin.
    - specialize (Hmax _ Hrow). by rewrite Ey in Hmax. }
  exists first, last. rewrite Ex, Ey. split_and!; try done.
  by apply Hall.
Qed.

(** The sample runs from 15 January to 10 February 2024. *)
Lemma get_analysis_date_range_witness :
  ∃ body first last,
    get_analysis Sample.scenario None None = Ok body
    ∧ date_range_start body = ymd (t_date first)
    ∧ date_range_end body = ymd (t_date last)
    ∧ datetime_le (t_date first) (t_date Sample.salary_jan)
    ∧ datetime_le (t_date Sample.salary_jan) (t_date last).
Proof.
  destruct (get_analysis Sample.scenario None None) as [body| | | |] eqn:Hbody;
    try discriminate.
  destruct (get_analysis_date_range Sample.scenario None None body Hbody)
    as (first & last & _ & _ & Hstart & Hend & _ & Hall).
  exists body, first, last. split; [done|]. split; [done|]. split; [done|].
  apply Hall. right; right; left.
Defined.

(** ** Global statistics: the counts *)

Lemma col_sum_cons (a : Qc) (l : list Qc) : col_sum (a :: l) = a + col_sum l.
Proof. reflexivity. Qed.

Lemma expenses_of_records_nonneg (l : list Transaction) : 0 ≤ expenses_of_records l.
Proof.
  unfold expenses_of_records. induction (filter _ l) as [|t l' IH]; [done|].
  cbn. apply Qcplus_nonneg_nonneg; [apply Qcabs_nonneg|done].
Qed.

Lemma length_remove_dups_le {A} `{EqDecision A} (l : list A) :
  (length (remove_dups l) ≤ length l)%nat.
Proof.
  induction l as [|x l IH]; [done|]. cbn. case_decide; cbn; lia.
Qed.

(** [X15] Whenever the global statistics answer 200,
    [total_transactions] is the number of records and [unique_categories]
    the number of distinct categories among them, which is at most the
    number of records and 0 only for the empty table; on the empty table
    every figure is 0. *)
Theorem get_stats_counts (db : list Transaction) (stats : Stats) :
  get_stats db = Ok stats →
  total_transactions stats = length db
  ∧ (∃ categories,
       NoDup categories
       ∧ (∀ c, c ∈ categories ↔ ∃ t, t ∈ db ∧ t_category t = c)
       ∧ unique_categories stats = length categories)
  ∧ (unique_categories stats ≤ total_transactions stats)%nat
  ∧ (unique_categories stats = 0%nat ↔ db = [])
  ∧ (db = [] → stats = mk_Stats 0 0 0 0 0).
Proof.
  rewrite get_stats_eq. intros [= <-]. cbn. split_and!.
  - done.
  - exists (remove_dups (map t_category db)). split; [apply NoDup_remove_dups|].
    split; [|done]. intros c. rewrite elem_of_remove_dups.
    change (map t_category db) with (t_category <$> db).
    rewrite list_elem_of_fmap. split.
    + intros (t & -> & Ht). by exists t.
    + intros (t & Ht & <-). by exists t.
  - transitivity (length (map t_category db)); [|by rewrite length_map].
    apply length_remove_dups_le.
  - split; [|by intros ->].
    destruct db as [|t db]; [done|]. intros Hlen.
    apply length_zero_iff_nil in Hlen.
    assert (t_category t ∈ remove_dups (map t_category (t :: db))) as Hin
      by (apply elem_of_remove_dups; left).
    rewrite Hlen in Hin. by apply elem_of_nil in Hin.
  - intros ->. cbn. f_equal; apply Qc_is_canon; reflexivity.
Qed.

(** The empty table, and the three records of the sample in their two
    categories. *)
Lemma get_stats_counts_witness :
  get_stats [] = Ok (mk_Stats 0 0 0 0 0)
  ∧ ∃ stats, get_stats Sample.scenario = Ok stats
             ∧ total_transactions stats = 3%nat
             ∧ (unique_categories stats ≤ 3)%nat.
Proof.
  split.
  - destruct (get_stats []) as [stats| | | |] eqn:Hstats; try discriminate Hstats.
    f_equal. by apply (get_stats_counts [] stats Hstats).
  - destruct (get_stats Sample.scenario) as [stats| | | |] eqn:Hstats;
      try discriminate Hstats.
    exists stats. split; [reflexivity|].
    destruct (get_stats_counts Sample.scenario stats Hstats) as (Htotal & _ & Hle & _).
    split; [exact Htotal|]. rewrite Htotal in Hle. exact Hle.
Defined.

(** ** Rounding keeps the order *)

Lemma round_half_even_mono (x y : Qc) :
  x ≤ y → (round_half_even x ≤ round_half_even y)%Z.
Proof.
  intros Hxy. assert (Qfloor x ≤ Qfloor y)%Z as Hf by by apply Qfloor_resp_le.
  unfold round_half_even.
  destruct (decide (Qfloor x = Qfloor y)) as [Heq|Hne].
  - rewrite <- Heq.
    set (rx := x - Qc_of_Z (Qfloor x)). set (ry := y - Qc_of_Z (Qfloor x)).
    assert (rx ≤ ry) as Hr by by apply Qcplus_le_mono_r.
    assert (ry < half → rx < half) as Hlow by by apply Qcle_lt_trans.
    assert (half < rx → half < ry) as Hhigh
      by (intros ?; by eapply Qclt_le_trans).
    repeat case_decide; destruct (Z.even (Qfloor x)); try lia; exfalso; tauto.
  - repeat case_decide; destruct (Z.even (Qfloor x)), (Z.even (Qfloor y)); lia.
Qed.

Lemma money_mono (a b : Z) : (a ≤ b)%Z → money a ≤ money b.
Proof.
  intros Hab. unfold money, Qcle. cbn. rewrite !Qred_correct.
  unfold Qle. cbn. lia.
Qed.

Lemma hundred_nonneg : 0 ≤ hundred.
Proof. unfold Qcle. cbn. discriminate. Qed.

(** [round(x, 2)] is monotone. *)
Lemma round2_mono (x y : Qc) : x ≤ y → round2 x ≤ round2 y.
Proof.
  intros Hxy. unfold round2. apply money_mono, round_half_even_mono.
  apply Qcmult_le_compat_r; [done|apply hundred_nonneg].
Qed.

Lemma round2_nonneg (x : Qc) : 0 ≤ x → 0 ≤ round2 x.
Proof. intros Hx. rewrite <- round2_zero. by apply round2_mono. Qed.

Lemma col_sum_abs_nonneg (l : list Qc) : 0 ≤ col_sum (map Qcabs l).
Proof.
  induction l as [|a l IH]; [done|]. rewrite map_cons, col_sum_cons.
  apply Qcplus_nonneg_nonneg; [apply Qcabs_nonneg|done].
Qed.

(** ** Bounds on the reported figures *)

Lemma minus_nonneg_le (a b : Qc) : 0 ≤ b → a - b ≤ a.
Proof.
  intros Hb. apply Qcle_minus_iff. by replace (a + - (a - b)) with b by ring.
Qed.

Lemma rate_le_hundred (income expenses : Qc) :
  0 ≤ expenses → rate (income - expenses) income ≤ hundred.
Proof.
  intros He. unfold rate. case_decide as Hpos; [|apply hundred_nonneg].
  rewrite <- (Qcmult_1_l hundred) at 2.
  apply Qcmult_le_compat_r; [|apply hundred_nonneg].
  rewrite <- (Qcmult_inv_r income) by by apply Qclt_not_eq in Hpos.
  unfold Qcdiv. apply Qcmult_le_compat_r; [by apply minus_nonneg_le|].
  apply Qclt_le_weak. by apply Qcinv_pos.
Qed.

Lemma round2_hundred : round2 hundred = hundred.
Proof. apply Qc_is_canon. reflexivity. Qed.

Lemma month_expenses_nonneg (df : DataFrame) (m : Z) : 0 ≤ month_expenses df m.
Proof. apply col_sum_abs_nonneg. Qed.

(** [X17] Reported expenses are never negative, whatever signs are
    stored: every value of the category spending, the expenses of every
    monthly entry, the [total_expenses] of the summary and the expenses of
    both periods of a comparison. *)
Theorem expenses_never_negative :
  (∀ (df : DataFrame) c v, analyze_spending df !! c = Some v → 0 ≤ v)
  ∧ (∀ df result,
       analyze_monthly df = Some result → Forall (λ e, 0 ≤ me_expenses e) result)
  ∧ (∀ db s e body,
       get_analysis db s e = Ok body → 0 ≤ total_expenses (summary body))
  ∧ (∀ db p1s p1e p2s p2e body,
       compare_periods db p1s p1e p2s p2e = Ok body →
       0 ≤ p_expenses (period1 body) ∧ 0 ≤ p_expenses (period2 body)).
Proof.
  split_and!.
  - intros df c v. rewrite analyze_spending_lookup.
    destruct (expenses_of c df) as [|r l]; [done|]. intros [= <-].
    apply (col_sum_abs_nonneg (map row_amount (r :: l))).
  - intros [|r rs] result; [by intros [= <-]|].
    rewrite analyze_monthly_cons. intros [= <-].
    apply Forall_fmap, Forall_forall. intros m _.
    unfold month_entry. cbn [me_expenses].
    apply round2_nonneg, month_expenses_nonneg.
  - intros db s e body. rewrite get_analysis_eq.
    destruct (get_transactions_as_dataframe db s e); [done|]. intros [= <-].
    unfold summary_of. cbn [summary total_expenses].
    apply round2_nonneg, expenses_of_records_nonneg.
  - intros db [p1s|] [p1e|] [p2s|] [p2e|] body; try done.
    rewrite compare_periods_eq. intros [= <-].
    unfold totals_of. cbn [period1 period2 p_expenses].
    split; apply round2_nonneg, expenses_of_records_nonneg.
Qed.

(** The sample's Food spending, stored as -30 and 20, is reported as 50. *)
Lemma expenses_never_negative_witness :
  ∃ v, analyze_spending (to_row <$> Sample.scenario) !! "Food" = Some v ∧ 0 ≤ v.
Proof.
  destruct (analyze_spending (to_row <$> Sample.scenario) !! "Food") as [v|] eqn:Hv;
    [|by rewrite analyze_spending_lookup in Hv].
  exists v. split; [done|].
  by apply (proj1 expenses_never_negative (to_row <$> Sample.scenario) "Food").
Defined.

(** [X18] Reported savings never exceed the reported income, and a
    savings rate never exceeds 100: in every monthly entry and in the
    summary. *)
Theorem savings_bounded_by_income :
  (∀ df result,
      analyze_monthly df = Some result →
      Forall (λ e, me_savings e ≤ me_income e ∧ me_savings_rate e ≤ hundred) result)
  ∧ (∀ db s e body,
      get_analysis db s e = Ok body →
      total_savings (summary body) ≤ total_income (summary body)
      ∧ savings_rate (summary body) ≤ hundred).
Proof.
  split.
  - intros [|r rs] result; [by intros [= <-]|].
    rewrite analyze_monthly_cons. intros [= <-].
    apply Forall_fmap, Forall_forall. intros m _.
    unfold month_entry. cbn [me_income me_savings me_savings_rate]. split.
    + apply round2_mono, minus_nonneg_le, month_expenses_nonneg.
    + rewrite <- round2_hundred. apply round2_mono, rate_le_hundred,
        month_expenses_nonneg.
  - intros db s e body. rewrite get_analysis_eq.
    destruct (get_transactions_as_dataframe db s e); [done|]. intros [= <-].
    unfold summary_of. cbn [summary total_income total_savings savings_rate].
    split.
    + apply round2_mono, minus_nonneg_le, expenses_of_records_nonneg.
    + rewrite <- round2_hundred. apply round2_mono, rate_le_hundred,
        expenses_of_records_nonneg.
Qed.

Lemma savings_bounded_by_income_witness :
  ∃ body,
    get_analysis Sample.scenario None None = Ok body
    ∧ savings_rate (summary body) ≤ hundred.
Proof.
  destruct (get_analysis Sample.scenario None None) as [body| | | |] eqn:Hbody;
    try discriminate.
  exists body. split; [done|].
  by apply (proj2 savings_bounded_by_income Sample.scenario None None body).
Defined.

(** ** The months of the breakdown *)

Lemma period_succ (p : Z) :
  (period_year (p + 1), period_month (p + 1))
  = next_month (period_year p, period_month p).
Proof.
  unfold next_month, period_year, period_month. cbn [fst snd].
  case_decide as H12; f_equal; Z.div_mod_to_equations; lia.
Qed.

Lemma period_in_range (r : Row) (rs : DataFrame) (x : Row) :
  Forall (λ r, valid_datetime (row_date r)) (r :: rs) → x ∈ r :: rs →
  to_period (row_date x) ∈ period_range (date_min r rs) (date_max r rs).
Proof.
  intros Hvalid Hx. rewrite Forall_forall in Hvalid.
  destruct (date_min_spec r rs) as [(a & Ha & Ea) Hmin].
  destruct (date_max_spec r rs) as [(b & Hb & Eb) Hmax].
  unfold period_range. apply elem_of_seqZ.
  assert (to_period (date_min r rs) ≤ to_period (row_date x))%Z.
  { apply to_period_mono; [rewrite Ea; by apply Hvalid|by apply Hvalid|by apply Hmin]. }
  assert (to_period (row_date x) ≤ to_period (date_max r rs))%Z.
  { apply to_period_mono; [by apply Hvalid|rewrite Eb; by apply Hvalid|by apply Hmax]. }
  lia.
Qed.

(** [X19] Every record falls in an entry of the monthly breakdown, and
    that entry is labelled with the year and the month of the record's
    date; each entry after the first is labelled with the calendar month
    after its predecessor's, December being followed by January of the
    next year. *)
Theorem analyze_monthly_labels (df : DataFrame) (result : list MonthEntry) :
  Forall (λ r, valid_datetime (row_date r)) df →
  analyze_monthly df = Some result →
  (∀ r, r ∈ df →
        ∃ e, e ∈ result
             ∧ me_month e = to_period (row_date r)
             ∧ label e = (year (row_date r), month (row_date r)))
  ∧ (∀ i e1 e2,
       result !! i = Some e1 → result !! S i = Some e2 →
       label e2 = next_month (label e1)).
Proof.
  intros Hvalid. destruct df as [|r rs]; [intros [= <-]; split; [|done]|].
  { intros r Hr. by apply elem_of_nil in Hr. }
  rewrite analyze_monthly_cons. intros [= <-]. split.
  - intros x Hx. exists (month_entry (r :: rs) (to_period (row_date x))).
    split; [apply list_elem_of_fmap_2; by apply period_in_range|].
    split; [done|]. unfold label. cbn [me_month month_entry].
    rewrite Forall_forall in Hvalid.
    destruct (period_year_month (row_date x)) as [-> ->]; [by apply Hvalid|done].
  - intros i e1 e2. rewrite !list_lookup_fmap. unfold period_range.
    intros H1 H2.
    destruct (seqZ _ _ !! i) as [m1|] eqn:E1; [|done].
    destruct (seqZ _ _ !! S i) as [m2|] eqn:E2; [|done].
    cbn in H1, H2. simplify_eq.
    apply lookup_seqZ in E1 as [-> _]. apply lookup_seqZ in E2 as [-> _].
    unfold label. cbn [me_month month_entry].
    rewrite <- period_succ. do 2 f_equal; lia.
Qed.

(** December 2023 to January 2024: two entries, labelled (2023, 12) and
    (2024, 1). *)
Lemma analyze_monthly_labels_witness :
  let december := mk_Row 1 (Sample.on 2023 12 30) "Food" (money 1000) "expense" None in
  let january := mk_Row 2 (Sample.on 2024 1 2) "Food" (money 2000) "expense" None in
  ∃ e1 e2,
    analyze_monthly [december; january] = Some [e1; e2]
    ∧ label e1 = (2023, 12)%Z ∧ label e2 = (2024, 1)%Z.
Proof.
  intros december january.
  destruct (analyze_monthly [december; january]) as [[|e1 [|e2 [|]]]|] eqn:Hres;
    try discriminate.
  destruct (analyze_monthly_labels [december; january] [e1; e2]) as [Hin Hnext];
    [by apply (bool_decide_unpack _)|done|].
  exists e1, e2. split; [done|].
  assert (label e1 = (2023, 12)%Z) as H1.
  { destruct (Hin december) as (e & He & Hm & Hl); [left|].
    repeat (apply elem_of_cons in He as [->|He]); [done| |by apply elem_of_nil in He].
    vm_compute in Hres. injection Hres as <- <-. discriminate. }
  split; [done|]. rewrite (Hnext 0%nat e1 e2 eq_refl eq_refl), H1. reflexivity.
Defined.

(** ** The two readers of the type field *)

(** [X22] On the two values the enumeration itself writes out, ["income"]
    and ["expense"], both readers of the type field return the member
    that was written, and these are the only strings that creation stores
    under their own name: for every other input the stored type reads
    back as a different string. *)
Theorem type_round_trip :
  (∀ ty, type_of_input (value ty) = ty)
  ∧ (∀ ty, TransactionType_getitem (upper (value ty)) = Some ty)
  ∧ (∀ s, value (type_of_input s) = s ↔ s = "income" ∨ s = "expense")
  ∧ (∀ s ty, TransactionType_getitem (upper s) = Some ty →
             type_of_input s = ty ↔ s = "income" ∨ ty = EXPENSE).
Proof.
  split_and!.
  - by intros [].
  - by intros [].
  - intros s. unfold type_of_input. case_decide as Hs; cbn.
    + subst. split; [by left|done].
    + split; [by right|]. intros [?|?]; [done|by subst].
  - intros s ty Hty. unfold type_of_input. case_decide as Hs.
    + subst. cbn in Hty. injection Hty as <-. split; [by left|done].
    + split; [by right|]. intros [?|?]; [done|by subst].
Qed.

(** ** A created record in the listing *)

(** [X24] A record that has just been created is in the unfiltered
    listing, together with every record that was stored before, and it is
    found by listing the records of its own category and type, a listing
    that holds records of that type only. *)
Theorem created_record_is_visible (db : list Transaction) (data : TransactionData)
    (t : Transaction) :
  (create_transaction db data).1 = Created t →
  let db' := (create_transaction db data).2 in
  (∃ l, get_transactions db' Missing Missing None None = Ok (length l, l)
        ∧ t ∈ l ∧ ∀ x, x ∈ db → x ∈ l)
  ∧ (∃ l, get_transactions db' Missing Missing
            (Some (t_category t)) (Some (value (t_type t))) = Ok (length l, l)
          ∧ t ∈ l
          ∧ ∀ x, x ∈ l → t_type x = t_type t).
Proof.
  intros Hcreated. cbn zeta.
  assert ((create_transaction db data).2 = db ++ [t]) as ->.
  { revert Hcreated.
    destruct data as [[| |date] [category|] [| |amount] [ty|] description];
      cbn; intros; by simplify_eq. }
  split.
  - exists (db ++ [t]). split; [done|]. split.
    + apply elem_of_app. right. left.
    + intros x Hx. apply elem_of_app. by left.
  - eexists. split.
    + apply (get_transactions_eq _ _ _ _ _ (Some (t_type t))); [done|done|].
      by destruct (t_type t).
    + cbn zeta. cbn [convert]. split.
      * apply list_elem_of_filter. split; [|apply elem_of_app; right; left].
        unfold listed, in_range, given. cbn. split; [done|]. split; [|done].
        by case_decide.
      * by intros x [(_ & _ & Hty) _]%list_elem_of_filter.
Qed.

(** The first record of an empty table. *)
Lemma created_record_is_visible_witness :
  let data := mk_TransactionData (Value (Sample.on 2024 1 20)) (Some "Salary")
                                 (Value (money 100000)) (Some "income") None in
  ∃ t l,
    (create_transaction [] data).1 = Created t
    ∧ get_transactions (create_transaction [] data).2 Missing Missing None None
      = Ok (length l, l)
    ∧ t ∈ l.
Proof.
  intros data.
  destruct (create_transaction [] data).1 as [|t| | |] eqn:Hr; try discriminate Hr.
  destruct (created_record_is_visible [] data t Hr) as [(l & Hl & Hin & _) _].
  by exists t, l.
Defined.

(** ** Wider date ranges *)






(** ** The parameters of a comparison *)

(** [X26] A comparison answers 400 exactly when one of its four bounds is
    absent or empty, whatever the table holds; with four bounds given, it
    answers 500 exactly when one of them is not read as a date, and 200
    when all are: it never answers 404, also when both periods are
    empty. *)
Theorem compare_periods_status {A : Machine.Arith}
    (db : list Machine.Transaction) (p1s p1e p2s p2e : Field datetime) :
  let r := Machine.compare_periods db p1s p1e p2s p2e in
  (status r = 400%Z ↔
   p1s = Missing ∨ p1e = Missing ∨ p2s = Missing ∨ p2e = Missing)
  ∧ (status r = 500%Z ↔
     (p1s ≠ Missing ∧ p1e ≠ Missing ∧ p2s ≠ Missing ∧ p2e ≠ Missing)
     ∧ (p1s = Malformed ∨ p1e = Malformed ∨ p2s = Malformed ∨ p2e = Malformed))
  ∧ (status r = 200%Z ↔
     is_Some (convert p1s) ∧ is_Some (convert p1e)
     ∧ is_Some (convert p2s) ∧ is_Some (convert p2e))
  ∧ (status r = 200%Z ∨ status r = 400%Z ∨ status r = 500%Z).
Proof.
  destruct p1s as [| |a], p1e as [| |b], p2s as [| |c], p2e as [| |d];
    try (destruct (machine_compare_periods db a b c d) as (? & ? & Hbody & _);
         cbn zeta in Hbody; cbn zeta; rewrite Hbody);
    cbn;
    (split_and!;
     [split; [try done; tauto|intuition discriminate]
     |split; [try done; intuition congruence|intuition discriminate]
     |split; [try done; by intros; split_and!; eexists
             |try done; intros (?&?&?&?);
              repeat match goal with
                     | H : is_Some None |- _ => by destruct H as [? [=]]
                     end]
     |tauto]).
Qed.

(** ** Listing budget goals *)

(** [X27] The listing of budget goals answers 200 with all rows and their
    number.  After a goal has been set with the answer 201 on a table with
    one goal per category, the listing holds exactly one goal of that
    category, the row of the answer, carrying the limit of the request,
    and its count is the old count, or one more if the category had no
    goal. *)
Theorem set_then_list_budget_goals (now : datetime) (goals : list BudgetGoal)
    (data : BudgetGoalData) (message : string) (goal : BudgetGoal) :
  NoDup (g_category <$> goals) →
  (set_budget_goal now goals data).1 = Created (message, goal) →
  let goals' := (set_budget_goal now goals data).2 in
  get_budget_goals goals' = Ok (length goals', goals')
  ∧ goals_of (g_category goal) goals' = [goal]%list
  ∧ bg_category data = Some (g_category goal)
  ∧ bg_monthly_limit data = Value (g_monthly_limit goal)
  ∧ length goals' = (if decide (goals_of (g_category goal) goals = [])
                     then S (length goals) else length goals).
Proof.
  intros Hnd Hcreated goals'.
  destruct (set_budget_goal_created now goals data message goal Hcreated)
    as (c & l & ->).
  destruct (set_budget_goal_value now goals c l)
    as (message' & goal' & Hr & Hfirst & Hin & Hc & Hl & _ & _ & Hcase).
  cbn zeta in Hr, Hfirst, Hin, Hcase. rewrite Hcreated in Hr.
  injection Hr as <- <-.
  fold goals' in Hfirst, Hin, Hcase.
  split; [done|]. rewrite Hc, Hl. split; [|split; [done|split; [done|]]].
  - rewrite <- Hc. apply goals_of_unique; [|done].
    destruct (first_goal c goals) as [[i g]|] eqn:Hfind.
    + destruct Hcase as (_ & -> & _ & _).
      apply list_find_Some in Hfind as (Hi & Hg & _).
      rewrite (categories_insert goals i g goal); [done|done|congruence].
    + destruct Hcase as (_ & -> & _). rewrite fmap_app.
      apply NoDup_app. split; [done|]. split; [|apply NoDup_singleton].
      intros c' (g & Hc' & Hg)%list_elem_of_fmap Hnew%list_elem_of_singleton.
      cbn in Hnew. subst c'. apply first_goal_None in Hfind.
      eapply (filter_nil_not_elem_of _ _ g Hfind); [|done]. congruence.
  - destruct (first_goal c goals) as [[i g]|] eqn:Hfind.
    + destruct Hcase as (_ & _ & -> & _). rewrite decide_False; [done|].
      intros Hnone%first_goal_None. congruence.
    + destruct Hcase as (_ & -> & _). apply first_goal_None in Hfind.
      rewrite decide_True by done. by rewrite length_app, Nat.add_1_r.
Qed.

Lemma set_then_list_budget_goals_witness :
  let goals := [mk_BudgetGoal 1 "Food" (money 30000) (Sample.on 2024 1 1) (Sample.on 2024 1 1);
                mk_BudgetGoal 2 "Rent" (money 90000) (Sample.on 2024 1 1) (Sample.on 2024 1 1)] in
  let data := mk_BudgetGoalData (Some "Food") (Value (money 25000)) in
  let goals' := (set_budget_goal (Sample.on 2024 5 1) goals data).2 in
  ∃ goal, goals_of "Food" goals' = [goal]%list
          ∧ g_monthly_limit goal = money 25000
          ∧ length goals' = 2%nat.
Proof.
  intros goals data goals'.
  destruct (set_budget_goal (Sample.on 2024 5 1) goals data).1
    as [|[message goal]| | |] eqn:Hr; try discriminate Hr.
  destruct (set_then_list_budget_goals (Sample.on 2024 5 1) goals data message goal)
    as (_ & Hgoal & Hc & Hlimit & Hlen); [by apply (bool_decide_unpack _)|exact Hr|].
  injection Hc as Hc. injection Hlimit as Hlimit.
  exists goal. rewrite Hc, Hlimit. split; [exact Hgoal|]. split; [done|].
  rewrite <- Hc in Hlen. exact Hlen.
Defined.

(** ** Rounding and the sign *)

Lemma floor_bounds (x : Qc) :
  Qc_of_Z (Qfloor x) ≤ x ∧ x < Qc_of_Z (Qfloor x + 1).
Proof. split; [apply Qfloor_le|apply Qlt_floor]. Qed.

Lemma floor_unique (x : Qc) (n : Z) :
  Qc_of_Z n ≤ x → x < Qc_of_Z (n + 1) → Qfloor x = n.
Proof.
  intros Hlo Hhi. apply Qfloor_resp_le in Hlo.
  change (Qfloor (inject_Z n) ≤ Qfloor x)%Z in Hlo. rewrite Qfloor_Z in Hlo.
  assert (inject_Z (Qfloor x) < inject_Z (n + 1))%Q as Hlt
    by (eapply Qle_lt_trans; [apply Qfloor_le|exact Hhi]).
  rewrite <- Zlt_Qlt in Hlt. lia.
Qed.

Lemma Qc_of_Z_opp (n : Z) : Qc_of_Z (- n) = - Qc_of_Z n.
Proof. apply Qc_is_canon. cbn. rewrite Qred_correct. by rewrite inject_Z_opp. Qed.

Lemma Qc_of_Z_plus (a b : Z) : Qc_of_Z (a + b) = Qc_of_Z a + Qc_of_Z b.
Proof. apply Qc_is_canon. cbn. rewrite Qred_correct. by rewrite inject_Z_plus. Qed.

Lemma Qc_of_Z_one : Qc_of_Z 1 = 1.
Proof. by apply Qc_is_canon. Qed.

Lemma half_plus_half : half + half = 1.
Proof. by apply Qc_is_canon. Qed.

Lemma Qcopp_lt (x y : Qc) : x < y → - y < - x.
Proof.
  rewrite !Qclt_nge. intros Hlt Hle. apply Hlt.
  apply Qcopp_le_compat in Hle. by rewrite !Qcopp_involutive in Hle.
Qed.

Lemma even_pred_opp (f : Z) : Z.even (- f - 1) = negb (Z.even f).
Proof. rewrite Z.even_sub, Z.even_opp. cbn. by destruct (Z.even f). Qed.

(** Rounding half to even is symmetric about zero. *)
Lemma round_half_even_opp (x : Qc) :
  round_half_even (- x) = (- round_half_even x)%Z.
Proof.
  destruct (floor_bounds x) as [Hlo Hhi].
  destruct (decide (x = Qc_of_Z (Qfloor x))) as [Hint|Hfrac].
  - rewrite Hint, <- Qc_of_Z_opp. by rewrite !round_half_even_integer.
  - assert (Qc_of_Z (Qfloor x) < x) as Hlt.
    { apply Qcle_lt_or_eq in Hlo as [?|?]; [done|by destruct Hfrac]. }
    assert (Qfloor (this (- x)%Qc) = (- Qfloor x - 1)%Z) as Hfloor.
    { apply floor_unique.
      - replace (- Qfloor x - 1)%Z with (- (Qfloor x + 1))%Z by lia.
        rewrite Qc_of_Z_opp. apply Qcopp_le_compat. by apply Qclt_le_weak.
      - replace (- Qfloor x - 1 + 1)%Z with (- Qfloor x)%Z by lia.
        rewrite Qc_of_Z_opp. by apply Qcopp_lt. }
    unfold round_half_even. rewrite Hfloor, even_pred_opp.
    set (r := x - Qc_of_Z (Qfloor x)).
    assert (- x - Qc_of_Z (- Qfloor x - 1) = 1 - r) as ->.
    { unfold r. replace (- Qfloor x - 1)%Z with (- (Qfloor x + 1))%Z by lia.
      rewrite Qc_of_Z_opp, Qc_of_Z_plus, Qc_of_Z_one. ring. }
    assert (1 - r < half ↔ half < r) as Hlow.
    { rewrite <- half_plus_half at 1.
      rewrite (Qcplus_lt_mono_r (half + half - r) half (r - half)).
      by replace (half + half - r + (r - half)) with half by ring;
         replace (half + (r - half)) with r by ring. }
    assert (half < 1 - r ↔ r < half) as Hhigh.
    { rewrite <- half_plus_half at 1.
      rewrite (Qcplus_lt_mono_r half (half + half - r) (r - half)).
      by replace (half + half - r + (r - half)) with half by ring;
         replace (half + (r - half)) with r by ring. }
    assert (r < half → half < r → False) as Hasym
      by (intros H1 H2; by destruct (irreflexivity Qclt r); trans half).
    repeat case_decide; destruct (Z.even (Qfloor x)); cbn [negb];
      try lia; exfalso; tauto.
Qed.

Lemma money_opp (k : Z) : money (- k) = - money k.
Proof. apply Qc_is_canon. unfold money. cbn. by rewrite !Qred_correct. Qed.

Lemma round2_opp (x : Qc) : round2 (- x) = - round2 x.
Proof.
  unfold round2. replace (- x * hundred) with (- (x * hundred)) by ring.
  by rewrite round_half_even_opp, money_opp.
Qed.

(** ** Swapping the periods of a comparison *)

(** [X28] Swapping the two periods of a comparison swaps the reported
    period totals and turns [income_change] and [expense_change] into
    their opposites. *)
Theorem compare_periods_swap (db : list Transaction) (p1s p1e p2s p2e : datetime) :
  ∃ body body',
    compare_periods db (Some p1s) (Some p1e) (Some p2s) (Some p2e) = Ok body
    ∧ compare_periods db (Some p2s) (Some p2e) (Some p1s) (Some p1e) = Ok body'
    ∧ period1 body' = period2 body
    ∧ period2 body' = period1 body
    ∧ income_change (changes body') = - income_change (changes body)
    ∧ expense_change (changes body') = - expense_change (changes body).
Proof.
  do 2 eexists. split; [apply compare_periods_eq|].
  split; [apply compare_periods_eq|]. cbn zeta.
  unfold changes_of. cbn [period1 period2 changes income_change expense_change].
  split; [done|]. split; [done|].
  split; rewrite <- round2_opp; f_equal; ring.
Qed.
